(** * napari-update-checker: the version aggregator and the snooze record

    A shallow embedding of [napari_update_checker/qt_update_checker.py]:
    the two catalog readers [github_tags] and [conda_forge_releases], the
    generator [get_latest_version], and the methods [_check_time], [check]
    and [show_version_info] of the [UpdateChecker] widget.

    Python exceptions are values of [exn] carried by a [result]; the
    [lru_cache] memo tables, the file system, the label text and the dialogs
    that were opened are explicit state.  The two libraries the program calls
    into, [packaging.version] and [datetime.date], are modelled in the modules
    [Packaging] and [Datetime]. *)

From Stdlib Require Import ZArith NArith String Ascii List Lia Bool.
From stdpp Require Import base option gmap strings list pretty.

Set Warnings "-register-all".
#[local] Open Scope Z_scope.

(** ** Exceptions and results *)

(** The exception classes that can reach the program.  [OSError] stands for
    the operating-system errors that are not listed on their own (a reset
    connection, a timed-out read). *)
Inductive exn : Type :=
| HTTPError
| URLError
| OSError
| FileNotFoundError
| FileExistsError
| IsADirectoryError
| NotADirectoryError
| ValueError
| JSONDecodeError
| UnicodeDecodeError
| InvalidVersion
| AttributeError
| TypeError
| IndexError
| KeyError.

(** [isinstance(e, URLError)]: [HTTPError] is a subclass of [URLError]. *)
Definition is_URLError (e : exn) : bool :=
  match e with
  | HTTPError | URLError => true
  | _ => false
  end.

(** [isinstance(e, ValueError)]: the JSON and Unicode decoding errors and
    packaging's [InvalidVersion] derive from [ValueError]. *)
Definition is_ValueError (e : exn) : bool :=
  match e with
  | ValueError | JSONDecodeError | UnicodeDecodeError | InvalidVersion => true
  | _ => false
  end.

Inductive result (A : Type) : Type :=
| Ok (a : A)
| Raise (e : exn).
Arguments Ok {A} a.
Arguments Raise {A} e.

Definition rbind {A B : Type} (r : result A) (k : A -> result B) : result B :=
  match r with
  | Ok a => k a
  | Raise e => Raise e
  end.

Notation "x <- r ;; k" := (rbind r (fun x => k))
  (at level 100, r at next level, right associativity, only parsing).

(** ** JSON values, as [json.load] returns them *)

Inductive json : Type :=
| JNull
| JBool (b : bool)
| JNum (n : Z)
| JStr (s : string)
| JArr (l : list json)
| JObj (m : gmap string json).

(** Python truthiness of a loaded value ([if version:]). *)
Definition truthy (v : json) : bool :=
  match v with
  | JNull => false
  | JBool b => b
  | JNum n => negb (n =? 0)
  | JStr s => negb (String.eqb s "")
  | JArr l => match l with [] => false | _ => true end
  | JObj m => negb (bool_decide (m = ∅))
  end.

(** [x.get(key, default)]: only a dict has the method. *)
Definition py_get (x : json) (key : string) (default : json) : result json :=
  match x with
  | JObj m => Ok (from_option id default (m !! key))
  | _ => Raise AttributeError
  end.

(** The items a [for] loop draws from a loaded value: the elements of a list,
    the keys of a dict, the characters of a string; anything else is not
    iterable. *)
Definition py_iter (data : json) : result (list json) :=
  match data with
  | JArr l => Ok l
  | JObj m => Ok (map (fun kv => JStr (fst kv)) (map_to_list m))
  | JStr s => Ok (map (fun c => JStr (String c EmptyString)) (list_ascii_of_string s))
  | _ => Raise TypeError
  end.

(** [version.startswith('v')] and [version[1:]]. *)
Definition startswith_v (version : string) : bool :=
  match version with
  | String c _ => Ascii.eqb c "v"%char
  | EmptyString => false
  end.

Definition drop_first (version : string) : string :=
  match version with
  | String _ rest => rest
  | EmptyString => EmptyString
  end.

(** ** The two catalogs *)

(** What [with urlopen(url) as r: data = json.load(r)] gives for a URL: the
    loaded document, or the exception the request or the decoding raised. *)
Definition network : Type := string -> result json.

Definition GITHUB_URL : string := "https://api.github.com/repos/napari/napari/tags".
Definition CONDA_URL : string := "https://api.anaconda.org/package/conda-forge/napari/".

(** The loop of [github_tags], lines 38-45: [versions] is the list built so
    far.  A truthy name that is not a string has no [startswith]. *)
Fixpoint github_tags_loop (items : list json) (versions : list string)
  : result (list string) :=
  match items with
  | [] => Ok versions
  | item :: rest =>
      version <- py_get item "name" JNull ;;
      if truthy version then
        match version with
        | JStr s =>
            let s' := if startswith_v s then drop_first s else s in
            github_tags_loop rest (versions ++ [s'])
        | _ => Raise AttributeError
        end
      else github_tags_loop rest versions
  end.

(** The body of [github_tags] (without the memo table). *)
Definition github_tags_body (net : network) : result (list string) :=
  data <- net GITHUB_URL ;;
  items <- py_iter data ;;
  versions <- github_tags_loop items [] ;;
  Ok (rev versions).

(** The body of [conda_forge_releases]: whatever sits under ["versions"],
    unchecked. *)
Definition conda_forge_releases_body (net : network) : result json :=
  data <- net CONDA_URL ;;
  py_get data "versions" (JArr []).

(** [functools.lru_cache] on a function without arguments: a stored result is
    returned without running the body; a result is stored when the body
    returns, not when it raises. *)
Definition lru_cache {A : Type} (body : result A) (cache : option A)
  : result A * option A :=
  match cache with
  | Some v => (Ok v, cache)
  | None =>
      match body with
      | Ok v => (Ok v, Some v)
      | Raise e => (Raise e, None)
      end
  end.

Record caches : Type := mkCaches {
  github_tags_cache : option (list string);
  conda_forge_releases_cache : option json
}.

Definition empty_caches : caches := mkCaches None None.

Definition github_tags (net : network) (c : caches)
  : result (list string) * caches :=
  let '(r, m) := lru_cache (github_tags_body net) (github_tags_cache c) in
  (r, mkCaches m (conda_forge_releases_cache c)).

Definition conda_forge_releases (net : network) (c : caches)
  : result json * caches :=
  let '(r, m) := lru_cache (conda_forge_releases_body net) (conda_forge_releases_cache c) in
  (r, mkCaches (github_tags_cache c) m).

(** ** packaging.version *)

(** Version strings are read as ASCII text: the regular expression of
    [packaging.version.Version] is matched with [re.IGNORECASE], and on ASCII
    that is A-Z against a-z; the white space of [\s] is taken from the ASCII
    range. *)
Module Packaging.

(** A parsed version, the fields of packaging's [_Version] tuple: [pre],
    [post] and [dev] keep the normalised letter with the number, [local]
    is the tuple of its segments, numbers as [inl], lower-cased text as
    [inr]. *)
Record Version : Type := mkVersion {
  epoch : N;
  release : list N;
  pre : option (string * N);
  post : option (string * N);
  dev : option (string * N);
  local : option (list (N + string))
}.

(** *** Characters *)

Definition is_digit (c : ascii) : bool :=
  let n := nat_of_ascii c in (48 <=? n)%nat && (n <=? 57)%nat.

Definition is_upper (c : ascii) : bool :=
  let n := nat_of_ascii c in (65 <=? n)%nat && (n <=? 90)%nat.

Definition is_lower (c : ascii) : bool :=
  let n := nat_of_ascii c in (97 <=? n)%nat && (n <=? 122)%nat.

Definition lower (c : ascii) : ascii :=
  if is_upper c then ascii_of_nat (nat_of_ascii c + 32) else c.

(** [\s]: tab, line feed, vertical tab, form feed, carriage return, the
    four separators 0x1c-0x1f and the space. *)
Definition is_space (c : ascii) : bool :=
  let n := nat_of_ascii c in
  ((9 <=? n)%nat && (n <=? 13)%nat) || ((28 <=? n)%nat && (n <=? 32)%nat).

(** [[-_\.]] *)
Definition is_sep (c : ascii) : bool :=
  Ascii.eqb c "-" || Ascii.eqb c "_" || Ascii.eqb c ".".

(** [[a-z0-9]] under [re.IGNORECASE]. *)
Definition is_alnum (c : ascii) : bool :=
  is_digit c || is_lower c || is_upper c.

(** *** Pieces of the match *)

(** The longest prefix of characters that satisfy [p], and the rest. *)
Fixpoint span (p : ascii -> bool) (s : list ascii) : list ascii * list ascii :=
  match s with
  | c :: rest =>
      if p c then let '(a, b) := span p rest in (c :: a, b) else ([], s)
  | [] => ([], [])
  end.

(** [int(digits)] for a run of decimal digits. *)
Definition int_of_digits (ds : list ascii) : N :=
  fold_left (fun acc c => (10 * acc + N.of_nat (nat_of_ascii c - 48))%N) ds 0%N.

(** [[-_\.]?] *)
Definition opt_sep (s : list ascii) : list ascii :=
  match s with
  | c :: rest => if is_sep c then rest else s
  | [] => s
  end.

(** A literal word of the pattern, matched without regard to case. *)
Fixpoint keyword (kw s : list ascii) : option (list ascii) :=
  match kw, s with
  | [], _ => Some s
  | k :: kw', c :: s' => if Ascii.eqb k (lower c) then keyword kw' s' else None
  | _ :: _, [] => None
  end.

(** An alternation [w1|w2|...]: the first word that matches, with the
    letter it is normalised to. *)
Fixpoint keywords (kws : list (string * string)) (s : list ascii)
  : option (string * list ascii) :=
  match kws with
  | [] => None
  | (kw, norm) :: kws' =>
      match keyword (list_ascii_of_string kw) s with
      | Some rest => Some (norm, rest)
      | None => keywords kws' s
      end
  end.

(** [[-_\.]?(w1|w2|...)[-_\.]?([0-9]+)?], the shape shared by the
    pre-release, post-release and development segments; a missing number
    is 0 ([_parse_letter_version]). *)
Definition letter_number (kws : list (string * string)) (s : list ascii)
  : option (string * N) * list ascii :=
  match keywords kws (opt_sep s) with
  | Some (letter, rest) =>
      let '(ds, rest') := span is_digit (opt_sep rest) in
      match ds with
      | [] => (Some (letter, 0%N), opt_sep rest)
      | _ => (Some (letter, int_of_digits ds), rest')
      end
  | None => (None, s)
  end.

Definition pre_letters : list (string * string) :=
  [("alpha", "a"); ("a", "a"); ("beta", "b"); ("b", "b");
   ("preview", "rc"); ("pre", "rc"); ("c", "rc"); ("rc", "rc")]%string.

Definition post_letters : list (string * string) :=
  [("post", "post"); ("rev", "post"); ("r", "post")]%string.

Definition dev_letters : list (string * string) :=
  [("dev", "dev")]%string.

(** [(?:(?P<epoch>[0-9]+)!)?] *)
Definition match_epoch (s : list ascii) : N * list ascii :=
  let '(ds, rest) := span is_digit s in
  match ds, rest with
  | _ :: _, c :: rest' =>
      if Ascii.eqb c "!" then (int_of_digits ds, rest') else (0%N, s)
  | _, _ => (0%N, s)
  end.

(** The components of the release after the first, each [\.digits]. *)
Fixpoint match_release_tail (fuel : nat) (s : list ascii) : list N * list ascii :=
  match fuel with
  | O => ([], s)
  | S fuel' =>
      match s with
      | c :: rest =>
          if Ascii.eqb c "." then
            let '(ds, rest') := span is_digit rest in
            match ds with
            | [] => ([], s)
            | _ =>
                let '(ns, rest'') := match_release_tail fuel' rest' in
                (int_of_digits ds :: ns, rest'')
            end
          else ([], s)
      | [] => ([], s)
      end
  end.

(** The release segment, digits then any number of [\.digits].  Every
    further component takes at least two characters, so the length of the
    text is fuel enough ([match_release_tail_fuel]). *)
Definition match_release (s : list ascii) : option (list N * list ascii) :=
  let '(ds, rest) := span is_digit s in
  match ds with
  | [] => None
  | _ =>
      let '(ns, rest') := match_release_tail (length rest) rest in
      Some (int_of_digits ds :: ns, rest')
  end.

(** The post-release segment: [-N], or a letter with an optional number. *)
Definition match_post (s : list ascii) : option (string * N) * list ascii :=
  match s with
  | c :: rest =>
      if Ascii.eqb c "-" then
        let '(ds, rest') := span is_digit rest in
        match ds with
        | [] => letter_number post_letters s
        | _ => (Some ("post"%string, int_of_digits ds), rest')
        end
      else letter_number post_letters s
  | [] => (None, s)
  end.

(** One segment of a local version: [int(part)] when it is all digits,
    [part.lower()] otherwise. *)
Definition local_part (part : list ascii) : N + string :=
  if forallb is_digit part then inl (int_of_digits part)
  else inr (string_of_list_ascii (map lower part)).

(** The segments of the local version after the first. *)
Fixpoint match_local_tail (fuel : nat) (s : list ascii)
  : list (N + string) * list ascii :=
  match fuel with
  | O => ([], s)
  | S fuel' =>
      match s with
      | c :: rest =>
          if is_sep c then
            let '(part, rest') := span is_alnum rest in
            match part with
            | [] => ([], s)
            | _ =>
                let '(ps, rest'') := match_local_tail fuel' rest' in
                (local_part part :: ps, rest'')
            end
          else ([], s)
      | [] => ([], s)
      end
  end.

(** The optional local version: [+], a run of [[a-z0-9]], then any number
    of separator-and-run. *)
Definition match_local (s : list ascii)
  : option (list (N + string)) * list ascii :=
  match s with
  | c :: rest =>
      if Ascii.eqb c "+" then
        let '(part, rest') := span is_alnum rest in
        match part with
        | [] => (None, s)
        | _ =>
            let '(ps, rest'') := match_local_tail (length rest') rest' in
            (Some (local_part part :: ps), rest'')
        end
      else (None, s)
  | [] => (None, s)
  end.

(** [v?] *)
Definition opt_v (s : list ascii) : list ascii :=
  match s with
  | c :: rest => if Ascii.eqb (lower c) "v" then rest else s
  | [] => s
  end.

(** [Version(version)]: the whole text has to match
    [^ \s* v? epoch release pre post dev local \s* $]. *)
Definition parse_chars (s : list ascii) : option Version :=
  let s0 := opt_v (snd (span is_space s)) in
  let '(e, s1) := match_epoch s0 in
  match match_release s1 with
  | None => None
  | Some (rel, s2) =>
      let '(p, s3) := letter_number pre_letters s2 in
      let '(po, s4) := match_post s3 in
      let '(d, s5) := letter_number dev_letters s4 in
      let '(l, s6) := match_local s5 in
      match snd (span is_space s6) with
      | [] => Some (mkVersion e rel p po d l)
      | _ => None
      end
  end.

(** [packaging.version.parse] *)
Definition parse (version : string) : result Version :=
  match parse_chars (list_ascii_of_string version) with
  | Some v => Ok v
  | None => Raise InvalidVersion
  end.

(** *** The comparison key *)

(** packaging's [Infinity] and [NegativeInfinity] sentinels, which compare
    above and below everything else. *)
Inductive bound (A : Type) : Type :=
| NegativeInfinity
| Finite (a : A)
| Infinity.
Arguments NegativeInfinity {A}.
Arguments Finite {A} a.
Arguments Infinity {A}.

Record Key : Type := mkKey {
  k_epoch : N;
  k_release : list N;
  k_pre : bound (string * N);
  k_post : bound (string * N);
  k_dev : bound (string * N);
  k_local : bound (list (bound N * string))
}.

(** [itertools.dropwhile] *)
Fixpoint dropwhile {A : Type} (p : A -> bool) (l : list A) : list A :=
  match l with
  | x :: l' => if p x then dropwhile p l' else l
  | [] => []
  end.

(** [_cmpkey]: trailing zeros of the release do not count; a development
    release without pre- and post-release sorts before every pre-release,
    a final release after them. *)
Definition _cmpkey (v : Version) : Key :=
  let _release := rev (dropwhile (N.eqb 0) (rev (release v))) in
  let _pre :=
    match pre v, post v, dev v with
    | None, None, Some _ => NegativeInfinity
    | None, _, _ => Infinity
    | Some p, _, _ => Finite p
    end in
  let _post := match post v with None => NegativeInfinity | Some p => Finite p end in
  let _dev := match dev v with None => Infinity | Some d => Finite d end in
  let _local :=
    match local v with
    | None => NegativeInfinity
    | Some l =>
        Finite (map (fun i => match i with
                              | inl n => (Finite n, ""%string)
                              | inr s => (NegativeInfinity, s)
                              end) l)
    end in
  mkKey (epoch v) _release _pre _post _dev _local.

(** *** Python's ordering of the key *)

(** Tuples compare by their first unequal position. *)
Definition lex (c1 c2 : comparison) : comparison :=
  match c1 with
  | Eq => c2
  | _ => c1
  end.

Definition pair_cmp {A B : Type} (ca : A -> A -> comparison)
    (cb : B -> B -> comparison) (x y : A * B) : comparison :=
  lex (ca (fst x) (fst y)) (cb (snd x) (snd y)).

(** A tuple that is a proper prefix of another is the smaller one. *)
Fixpoint tuple_cmp {A : Type} (ca : A -> A -> comparison) (x y : list A)
  : comparison :=
  match x, y with
  | [], [] => Eq
  | [], _ :: _ => Lt
  | _ :: _, [] => Gt
  | a :: x', b :: y' => lex (ca a b) (tuple_cmp ca x' y')
  end.

Definition bound_cmp {A : Type} (ca : A -> A -> comparison) (x y : bound A)
  : comparison :=
  match x, y with
  | NegativeInfinity, NegativeInfinity => Eq
  | NegativeInfinity, _ => Lt
  | _, NegativeInfinity => Gt
  | Infinity, Infinity => Eq
  | Infinity, _ => Gt
  | _, Infinity => Lt
  | Finite a, Finite b => ca a b
  end.

Definition letter_cmp : string * N -> string * N -> comparison :=
  pair_cmp String.compare N.compare.

Definition key_cmp (x y : Key) : comparison :=
  lex (N.compare (k_epoch x) (k_epoch y))
 (lex (tuple_cmp N.compare (k_release x) (k_release y))
 (lex (bound_cmp letter_cmp (k_pre x) (k_pre y))
 (lex (bound_cmp letter_cmp (k_post x) (k_post y))
 (lex (bound_cmp letter_cmp (k_dev x) (k_dev y))
      (bound_cmp (tuple_cmp (pair_cmp (bound_cmp N.compare) String.compare))
         (k_local x) (k_local y)))))).

(** [Version.__gt__] and [Version.__eq__]: the keys are compared. *)
Definition version_gt (a b : Version) : bool :=
  match key_cmp (_cmpkey a) (_cmpkey b) with
  | Gt => true
  | _ => false
  end.

Definition version_eq (a b : Version) : bool :=
  match key_cmp (_cmpkey a) (_cmpkey b) with
  | Eq => true
  | _ => false
  end.

(** [Version.__str__] *)
Definition str_letter (p : string * N) : string :=
  fst p +:+ pretty (snd p).

Definition str_local_part (i : N + string) : string :=
  match i with
  | inl n => pretty n
  | inr s => s
  end.

Definition str (v : Version) : string :=
  (if N.eqb (epoch v) 0 then "" else pretty (epoch v) +:+ "!")
  +:+ String.concat "." (map pretty (release v))
  +:+ match pre v with Some p => str_letter p | None => "" end
  +:+ match post v with Some p => ".post" +:+ pretty (snd p) | None => "" end
  +:+ match dev v with Some d => ".dev" +:+ pretty (snd d) | None => "" end
  +:+ match local v with
      | Some l => "+" +:+ String.concat "." (map str_local_part l)
      | None => ""
      end.

End Packaging.

(** ** datetime.date *)

Module Datetime.

(** A [date] object; the constructor of the class accepts the triples for
    which [valid] holds (years 1 to 9999). *)
Record date : Type := mkDate {
  year : Z;
  month : Z;
  day : Z
}.

Definition _is_leap (y : Z) : bool :=
  (y mod 4 =? 0) && (negb (y mod 100 =? 0) || (y mod 400 =? 0)).

Definition _days_in_month (y m : Z) : Z :=
  if m =? 2 then (if _is_leap y then 29 else 28)
  else if (m =? 4) || (m =? 6) || (m =? 9) || (m =? 11) then 30
  else 31.

Definition valid (d : date) : bool :=
  (1 <=? year d) && (year d <=? 9999) &&
  (1 <=? month d) && (month d <=? 12) &&
  (1 <=? day d) && (day d <=? _days_in_month (year d) (month d)).

Definition _days_before_year (y : Z) : Z :=
  let y' := y - 1 in
  y' * 365 + y' / 4 - y' / 100 + y' / 400.

(** The table [_DAYS_BEFORE_MONTH], with the leap day added after
    February. *)
Definition _days_before_month (y m : Z) : Z :=
  nth (Z.to_nat m) [0; 0; 31; 59; 90; 120; 151; 181; 212; 243; 273; 304; 334] 0
  + (if (2 <? m) && _is_leap y then 1 else 0).

(** [date.toordinal]: day 1 is 0001-01-01. *)
Definition toordinal (d : date) : Z :=
  _days_before_year (year d) + _days_before_month (year d) (month d) + day d.

(** [(a - b).days] *)
Definition days_between (a b : date) : Z :=
  toordinal a - toordinal b.

(** *** [isoformat] and [fromisoformat] *)

Definition digit_char (n : Z) : ascii :=
  ascii_of_nat (48 + Z.to_nat n).

Definition digit_value (c : ascii) : option Z :=
  let n := nat_of_ascii c in
  if (48 <=? n)%nat && (n <=? 57)%nat then Some (Z.of_nat n - 48) else None.

(** ["%04d-%02d-%02d" % (year, month, day)] *)
Definition isoformat (d : date) : string :=
  let y := year d in let m := month d in let dd := day d in
  string_of_list_ascii
    [digit_char (y / 1000 mod 10); digit_char (y / 100 mod 10);
     digit_char (y / 10 mod 10); digit_char (y mod 10); "-"%char;
     digit_char (m / 10 mod 10); digit_char (m mod 10); "-"%char;
     digit_char (dd / 10 mod 10); digit_char (dd mod 10)].

(** [parse_digits]: exactly [n] decimal digits, most significant first. *)
Fixpoint parse_digits_from (n : nat) (acc : Z) (s : list ascii)
  : option (Z * list ascii) :=
  match n with
  | O => Some (acc, s)
  | S n' =>
      match s with
      | c :: rest =>
          match digit_value c with
          | Some v => parse_digits_from n' (10 * acc + v) rest
          | None => None
          end
      | [] => None
      end
  end.

Definition parse_digits (n : nat) (s : list ascii) : option (Z * list ascii) :=
  parse_digits_from n 0 s.

(** [ord_to_ymd], for an ordinal of 1 or more. *)
Definition ord_to_ymd (ordinal : Z) : date :=
  let n := ordinal - 1 in
  let n400 := n / 146097 in
  let n := n mod 146097 in
  let n100 := n / 36524 in
  let n := n mod 36524 in
  let n4 := n / 1461 in
  let n := n mod 1461 in
  let n1 := n / 365 in
  let n := n mod 365 in
  let y := n400 * 400 + 1 + n100 * 100 + n4 * 4 + n1 in
  if (n1 =? 4) || (n100 =? 4) then mkDate (y - 1) 12 31
  else
    let leapyear := (n1 =? 3) && (negb (n4 =? 24) || (n100 =? 3)) in
    let before (m : Z) :=
      nth (Z.to_nat m) [0; 0; 31; 59; 90; 120; 151; 181; 212; 243; 273; 304; 334] 0
      + (if (2 <? m) && leapyear then 1 else 0) in
    let m := Z.shiftr (n + 50) 5 in
    if n <? before m
    then mkDate y (m - 1) (n - (before m - _days_in_month y (m - 1)) + 1)
    else mkDate y m (n - before m + 1).

(** [weekday(year, 1, 1)], Monday being 0. *)
Definition first_weekday (y : Z) : Z :=
  (toordinal (mkDate y 1 1) + 6) mod 7.

(** [iso_week1_monday]: the ordinal of the Monday that starts week 1. *)
Definition iso_week1_monday (y : Z) : Z :=
  let first_day := toordinal (mkDate y 1 1) in
  let week1_monday := first_day - first_weekday y in
  if 3 <? first_weekday y then week1_monday + 7 else week1_monday.

(** [iso_to_ymd]: week 53 exists in the years that start on a Thursday and
    in the leap years that start on a Wednesday.  For the year 0000 the
    ordinal falls below 1, where [ord_to_ymd] gives no month from 1 to 12 and
    the constructor of [date] refuses the result: [None] as well. *)
Definition iso_to_ymd (iso_year iso_week iso_day : Z) : option date :=
  if iso_year <? 1 then None
  else if ((iso_week <=? 0) || (53 <=? iso_week))
          && negb ((iso_week =? 53)
                   && ((first_weekday iso_year =? 3)
                       || ((first_weekday iso_year =? 2) && _is_leap iso_year)))
  then None
  else if (iso_day <=? 0) || (8 <=? iso_day) then None
  else Some (ord_to_ymd (iso_week1_monday iso_year + (iso_week - 1) * 7 + iso_day - 1)).

(** [parse_isoformat_date], after the four digits of the year: the week
    form [W], two digits and, if the text goes on, a day of the week; or
    month and day.  A separator after the year asks for one before the day.
    Nothing checks that the text ends where the date does. *)
Definition parse_isoformat_date (s : list ascii) : option date :=
  match parse_digits 4 s with
  | None => None
  | Some (y, p) =>
      let uses_separator := match p with c :: _ => Ascii.eqb c "-" | [] => false end in
      let p := if uses_separator then tl p else p in
      let after_separator (q : list ascii) : option (list ascii) :=
        if uses_separator then
          match q with
          | c :: q' => if Ascii.eqb c "-" then Some q' else None
          | [] => None
          end
        else Some q in
      let is_week := match p with c :: _ => Ascii.eqb c "W" | [] => false end in
      if is_week then
        match parse_digits 2 (tl p) with
        | None => None
        | Some (iso_week, p) =>
            match p with
            | [] => iso_to_ymd y iso_week 1
            | _ :: _ =>
                match after_separator p with
                | None => None
                | Some p =>
                    match parse_digits 1 p with
                    | None => None
                    | Some (iso_day, _) => iso_to_ymd y iso_week iso_day
                    end
                end
            end
        end
      else
        match parse_digits 2 p with
        | None => None
        | Some (m, p) =>
            match after_separator p with
            | None => None
            | Some p =>
                match parse_digits 2 p with
                | None => None
                | Some (d, _) => Some (mkDate y m d)
                end
            end
        end
  end.

(** [date.fromisoformat] as of Python 3.11, on the UTF-8 bytes of its
    argument: a text of 7, 8 or 10 bytes in the calendar or the week form,
    with or without separators, that names a day of the calendar; [None]
    stands for the [ValueError] it raises otherwise. *)
Definition fromisoformat (date_string : string) : option date :=
  let s := list_ascii_of_string date_string in
  if (length s =? 7)%nat || (length s =? 8)%nat || (length s =? 10)%nat then
    match parse_isoformat_date s with
    | Some d => if valid d then Some d else None
    | None => None
    end
  else None.

End Datetime.

(** ** The aggregator *)

Import Packaging.

(** The two sources: the tags of the code host (source A) and the package
    index of conda-forge (source B). *)
Inductive catalog : Type :=
| Tags
| CondaForge.

(** What a run of the generator does that can be seen from outside: the
    warnings it shows, the versions it compares (line 76), the values it
    yields, in order.  [latest_version] and [latest_tag] are two objects even
    when they are equal; a yielded value carries the catalog its object was
    parsed from, which tells line 77 from line 79. *)
Inductive event : Type :=
| ShowWarning (msg : string)
| Compare (a b : Version)
| Yield (src : catalog) (v : Version).

(** A finished run: the events, and the exception that ended it, if any. *)
Record run : Type := mkRun {
  trace : list event;
  raised : option exn
}.

Definition NETWORK_WARNING : string :=
  "Plugin manager: There seems to be an issue with network connectivity. ".

(** [x[-1]] on a loaded value: the last element of a list, the last character
    of a string; a dict has no key [-1], the other values no subscript. *)
Definition index_last (x : json) : result json :=
  match x with
  | JArr l =>
      match last l with
      | Some v => Ok v
      | None => Raise IndexError
      end
  | JStr s =>
      match last (list_ascii_of_string s) with
      | Some c => Ok (JStr (String c EmptyString))
      | None => Raise IndexError
      end
  | JObj _ => Raise KeyError
  | _ => Raise TypeError
  end.

(** [gh_tags[-1]] *)
Definition list_last (l : list string) : result string :=
  match last l with
  | Some s => Ok s
  | None => Raise IndexError
  end.

(** [packaging.version.parse(x)]: the regular expression is only searched
    in a string. *)
Definition parse_value (x : json) : result Version :=
  match x with
  | JStr s => parse s
  | _ => Raise TypeError
  end.

(** [get_latest_version]: both catalog readers run in the pool and the [with]
    block waits for both; then [tags.result()] is taken before
    [cf.result()], and only an [HTTPError] or [URLError] is caught. *)
Definition get_latest_version (net : network) (c : caches) : run * caches :=
  let '(tags, c1) := github_tags net c in
  let '(cf, c2) := conda_forge_releases net c1 in
  let fetched := (gh_tags <- tags ;; cf_versions <- cf ;; Ok (gh_tags, cf_versions)) in
  match fetched with
  | Raise e =>
      if is_URLError e then (mkRun [ShowWarning NETWORK_WARNING] None, c2)
      else (mkRun [] (Some e), c2)
  | Ok (gh_tags, cf_versions) =>
      match (x <- index_last cf_versions ;; parse_value x) with
      | Raise e => (mkRun [] (Some e), c2)
      | Ok latest_version =>
          match (y <- list_last gh_tags ;; parse y) with
          | Raise e => (mkRun [] (Some e), c2)
          | Ok latest_tag =>
              if version_gt latest_version latest_tag
              then (mkRun [Compare latest_version latest_tag;
                           Yield CondaForge latest_version] None, c2)
              else (mkRun [Compare latest_version latest_tag;
                           Yield Tags latest_tag] None, c2)
          end
      end
  end.

(** The values a run yields and the warnings it shows. *)
Definition yields (r : run) : list Version :=
  omap (fun ev => match ev with Yield _ v => Some v | _ => None end) (trace r).

Definition warnings_of (r : run) : list string :=
  omap (fun ev => match ev with ShowWarning m => Some m | _ => None end) (trace r).

Definition comparisons (r : run) : list (Version * Version) :=
  omap (fun ev => match ev with Compare a b => Some (a, b) | _ => None end) (trace r).

(** ** The file system *)

(** A path is the list of its components below the root; a node is a file
    with its content, the bytes on disk, or a directory.  The root is always
    a directory. *)
Definition path : Type := list string.

Inductive node : Type :=
| File (content : string)
| Dir.

Definition lookup_node (fs : gmap (list string) node) (p : path) : option node :=
  match p with
  | [] => Some Dir
  | _ => fs !! p
  end.

(** [os.path.exists] *)
Definition path_exists (fs : gmap (list string) node) (p : path) : bool :=
  match lookup_node fs p with
  | Some _ => true
  | None => false
  end.

(** [open(p, encoding="utf-8")]: the bytes of the file, for [read] to
    decode. *)
Definition open_read (fs : gmap (list string) node) (p : path) : result string :=
  match lookup_node fs p with
  | Some (File content) => Ok content
  | Some Dir => Raise IsADirectoryError
  | None => Raise FileNotFoundError
  end.

(** Strict UTF-8: no stray or missing continuation byte, no overlong form,
    no surrogate, nothing above U+10FFFF. *)
Definition byte_in (lo hi : nat) (c : ascii) : bool :=
  (lo <=? nat_of_ascii c)%nat && (nat_of_ascii c <=? hi)%nat.

Fixpoint utf8_valid (s : list ascii) : bool :=
  match s with
  | [] => true
  | c :: rest =>
      if byte_in 0 127 c then utf8_valid rest
      else if byte_in 194 223 c then
        match rest with
        | c1 :: rest1 => byte_in 128 191 c1 && utf8_valid rest1
        | _ => false
        end
      else if byte_in 224 239 c then
        match rest with
        | c1 :: c2 :: rest2 =>
            byte_in (if byte_in 224 224 c then 160 else 128)
                    (if byte_in 237 237 c then 159 else 191) c1
            && byte_in 128 191 c2 && utf8_valid rest2
        | _ => false
        end
      else if byte_in 240 244 c then
        match rest with
        | c1 :: c2 :: c3 :: rest3 =>
            byte_in (if byte_in 240 240 c then 144 else 128)
                    (if byte_in 244 244 c then 143 else 191) c1
            && byte_in 128 191 c2 && byte_in 128 191 c3 && utf8_valid rest3
        | _ => false
        end
      else false
  end.

(** The line ends of a text file opened without [newline]: a carriage
    return, with the line feed after it if there is one, is read as one line
    feed. *)
Fixpoint universal_newlines (s : list ascii) : list ascii :=
  match s with
  | [] => []
  | c :: rest =>
      if Ascii.eqb c (ascii_of_nat 13) then
        ascii_of_nat 10 ::
        match rest with
        | c' :: rest' =>
            if Ascii.eqb c' (ascii_of_nat 10) then universal_newlines rest'
            else universal_newlines rest
        | [] => []
        end
      else c :: universal_newlines rest
  end.

(** [f_p.read()]: the text of the file, itself in UTF-8; bytes that do not
    decode raise [UnicodeDecodeError]. *)
Definition read (content : string) : result string :=
  if utf8_valid (list_ascii_of_string content)
  then Ok (string_of_list_ascii (universal_newlines (list_ascii_of_string content)))
  else Raise UnicodeDecodeError.

(** [os.remove] *)
Definition os_remove (fs : gmap (list string) node) (p : path)
  : result (gmap (list string) node) :=
  match lookup_node fs p with
  | Some (File _) => Ok (delete p fs)
  | Some Dir => Raise IsADirectoryError
  | None => Raise FileNotFoundError
  end.

(** [os.makedirs(p, exist_ok=True)], from the directory [above] downwards:
    missing directories are made, existing ones are kept, a file in the way
    is an error. *)
Fixpoint makedirs_from (fs : gmap (list string) node) (above : path)
    (names : list string) : result (gmap (list string) node) :=
  match names with
  | [] => Ok fs
  | name :: rest =>
      let p := above ++ [name] in
      match fs !! p with
      | None => makedirs_from (<[p := Dir]> fs) p rest
      | Some Dir => makedirs_from fs p rest
      | Some (File _) =>
          Raise (match rest with [] => FileExistsError | _ => NotADirectoryError end)
      end
  end.

Definition makedirs (fs : gmap (list string) node) (p : path)
  : result (gmap (list string) node) :=
  makedirs_from fs [] p.

(** [with open(p, "w", encoding="utf-8") as f_p: f_p.write(content)]: the
    directory has to be there; an existing file is truncated.  The text is
    stored in UTF-8, as it is: what the program writes has no line end to
    translate. *)
Definition open_write (fs : gmap (list string) node) (p : path) (content : string)
  : result (gmap (list string) node) :=
  match lookup_node fs (removelast p) with
  | Some Dir =>
      match lookup_node fs p with
      | Some Dir => Raise IsADirectoryError
      | _ => Ok (<[p := File content]> fs)
      end
  | Some (File _) => Raise NotADirectoryError
  | None => Raise FileNotFoundError
  end.

(** [os.path.join(base, name)] for a one-component relative [name]. *)
Definition path_join (base : path) (name : string) : path :=
  base ++ [name].

(** ** The widget *)

Import Datetime.

Definition IGNORE_DAYS : Z := 21.
Definition IGNORE_FILE : string := "ignore.txt".

Definition URL_PACKAGE : string :=
  "https://napari.org/dev/tutorials/fundamentals/installation.html#install-as-python-package-recommended".
Definition URL_BUNDLE : string :=
  "https://napari.org/dev/tutorials/fundamentals/installation.html#install-as-a-bundled-app".

(** The attributes of [UpdateChecker] that the checks read and write;
    [label] is the text of the [QLabel]. *)
Record UpdateChecker : Type := mkUpdateChecker {
  _current_version : Version;
  _latest_version : option Version;
  _base_folder : path;
  _snoozed : bool;
  label : string
}.

Definition set_snoozed (self : UpdateChecker) (b : bool) : UpdateChecker :=
  mkUpdateChecker (_current_version self) (_latest_version self)
    (_base_folder self) b (label self).

Definition setText (self : UpdateChecker) (text : string) : UpdateChecker :=
  mkUpdateChecker (_current_version self) (_latest_version self)
    (_base_folder self) (_snoozed self) text.

(** [__init__], with napari's [__version__] and [sys.prefix]. *)
Definition __init__ (__version__ : string) (prefix : path) : result UpdateChecker :=
  v <- parse __version__ ;;
  Ok (mkUpdateChecker v None prefix false "Checking for updates...<br>").

(** The button that closes the [QMessageBox]. *)
Inductive StandardButton : Type :=
| ButtonOk
| ButtonIgnore.

(** What a check finds around it: the date [date.today()] returns, whether
    napari runs from the bundle, the remote catalogs, and the button the
    user presses when a dialog opens. *)
Record environment : Type := mkEnvironment {
  today : date;
  ON_BUNDLE : bool;
  net : network;
  exec_ : StandardButton
}.

(** [date.fromisoformat(f_p.read())], line 125, on the bytes of the record
    file.  [None] stands for the [ValueError] of either call: the
    [UnicodeDecodeError] of [read] is one. *)
Definition record_date (content : string) : option date :=
  match read content with
  | Ok text => fromisoformat text
  | Raise _ => None
  end.

(** [_check_time], lines 115-132.  A [ValueError] from reading or parsing the
    record is suppressed and control falls through to [os.remove].
    [date.today()] is called on line 126 and again on line 127; both calls
    are taken to fall on the same day, [today]. *)
Definition _check_time (self : UpdateChecker) (fs : gmap (list string) node)
    (today : date) : result (bool * UpdateChecker * gmap (list string) node) :=
  let p := path_join (_base_folder self) IGNORE_FILE in
  if path_exists fs p then
    content <- open_read fs p ;;
    match record_date content with
    | Some old_date =>
        let self' := set_snoozed self (days_between today old_date <? IGNORE_DAYS) in
        if days_between today old_date <? IGNORE_DAYS then Ok (true, self', fs)
        else
          fs' <- os_remove fs p ;;
          Ok (false, self', fs')
    | None =>
        fs' <- os_remove fs p ;;
        Ok (false, self, fs')
    end
  else Ok (false, self, fs).

(** The two texts of [show_version_info]. *)
Definition outdated_msg (my_version remote_version : Version) (url : string) : string :=
  "You use outdated version of napari.<br><br>"
  +:+ "Installed version: " +:+ str my_version +:+ "<br>"
  +:+ "Current version: " +:+ str remote_version +:+ "<br><br>"
  +:+ "For more information on how to update <br>"
  +:+ "visit the <a href=" +:+ String (ascii_of_nat 34) EmptyString +:+ url
  +:+ String (ascii_of_nat 34) EmptyString +:+ ">online documentation</a><br><br>".

Definition latest_msg (my_version : Version) : string :=
  "You are using the latest version of napari!<br><br>"
  +:+ "Installed version: " +:+ str my_version +:+ "<br><br>".

(** The state the main thread works on: the widget, the files, and the
    messages of the dialogs opened so far. *)
Record screen : Type := mkScreen {
  widget : UpdateChecker;
  files : gmap (list string) node;
  dialogs : list string
}.

(** [show_version_info], lines 141-175.  The label is set and the dialog is
    closed before the record is written: when writing raises, the screen is
    returned as it is at that point, with the exception. *)
Definition show_version_info (env : environment) (s : screen)
    (latest_version : Version) : screen * option exn :=
  let self := widget s in
  let my_version := _current_version self in
  let remote_version := latest_version in
  if version_gt remote_version my_version then
    let url := if ON_BUNDLE env then URL_BUNDLE else URL_PACKAGE in
    let msg := outdated_msg my_version remote_version url in
    let self' := setText self msg in
    if negb (_snoozed self') then
      let shown := dialogs s ++ [msg] in
      match exec_ env with
      | ButtonIgnore =>
          match makedirs (files s) (_base_folder self') with
          | Raise e => (mkScreen self' (files s) shown, Some e)
          | Ok fs1 =>
              match open_write fs1 (path_join (_base_folder self') IGNORE_FILE)
                      (isoformat (today env)) with
              | Raise e => (mkScreen self' fs1 shown, Some e)
              | Ok fs2 => (mkScreen self' fs2 shown, None)
              end
          end
      | ButtonOk => (mkScreen self' (files s) shown, None)
      end
    else (mkScreen self' (files s) (dialogs s), None)
  else
    let msg := latest_msg my_version in
    (mkScreen (setText self msg) (files s) (dialogs s), None).

(** The whole application: the screen, the memo tables of the two readers,
    the warnings shown, and the error of the last worker, if it ended with
    one. *)
Record app : Type := mkApp {
  scr : screen;
  memo : caches;
  warnings : list string;
  worker_error : option exn
}.

(** The worker delivers the events of a run to the main thread: a yielded
    value goes to [show_version_info], a warning to the notifications.  An
    exception in [show_version_info] ends the delivery. *)
Fixpoint deliver (env : environment) (evs : list event) (s : screen)
    (ws : list string) : screen * list string * option exn :=
  match evs with
  | [] => (s, ws, None)
  | Yield _ v :: rest =>
      match show_version_info env s v with
      | (s', None) => deliver env rest s' ws
      | (s', Some e) => (s', ws, Some e)
      end
  | ShowWarning m :: rest => deliver env rest s (ws ++ [m])
  | Compare _ _ :: rest => deliver env rest s ws
  end.

(** [check], lines 134-138: the snooze record is looked at first and the
    answer of [_check_time] is dropped; then the worker runs
    [get_latest_version].  The result is the application afterwards and the
    exception that reached the main thread, if any. *)
Definition check (env : environment) (a : app) : app * option exn :=
  match _check_time (widget (scr a)) (files (scr a)) (today env) with
  | Raise e => (a, Some e)
  | Ok (_, self', fs') =>
      let '(ran, memo') := get_latest_version (net env) (memo a) in
      let '(s', ws', err) :=
        deliver env (trace ran) (mkScreen self' fs' (dialogs (scr a))) (warnings a) in
      (mkApp s' memo' ws' (raised ran), err)
  end.

(** [_check]: the button resets the label and restarts the timer, which
    calls [check]. *)
Definition _check (env : environment) (a : app) : app * option exn :=
  check env
    (mkApp (mkScreen (setText (widget (scr a))
                        ("Checking for updates..." +:+ String (ascii_of_nat 10) EmptyString))
              (files (scr a)) (dialogs (scr a)))
       (memo a) (warnings a) (worker_error a)).

(** ** Scenarios *)

(** A network on which both catalogs answer: the tags endpoint lists
    [tags], newest first, the package index lists [versions], oldest
    first. *)
Definition tag_item (name : string) : json :=
  JObj {[ "name"%string := JStr name ]}.

Definition responses (github conda : result json) : network :=
  fun url =>
    if String.eqb url GITHUB_URL then github
    else if String.eqb url CONDA_URL then conda
    else Raise URLError.

Definition catalogs (tags versions : list string) : network :=
  responses (Ok (JArr (map tag_item tags)))
            (Ok (JObj {[ "versions"%string := JArr (map JStr versions) ]})).

(** A freshly started application: nothing fetched, nothing shown, an
    installation directory without a snooze record. *)
Definition PREFIX : path := ["opt"; "napari"]%string.

Definition fresh_files : gmap (list string) node :=
  {[ ["opt"]%string := Dir; PREFIX := Dir ]}.

Definition start (self : UpdateChecker) (fs : gmap (list string) node) : app :=
  mkApp (mkScreen self fs []) empty_caches [] None.

(** Installed 0.4.0, the tags end at 0.4.5, the package index at 0.4.3;
    the user closes the dialog with OK. *)
Definition example_env : environment :=
  mkEnvironment (mkDate 2024 3 1) false
    (catalogs ["v0.4.5"; "v0.4.4"; "v0.4.3"] ["0.4.2"; "0.4.3"])%string ButtonOk.

(** The tags endpoint answers with a body that is not JSON while the package
    index cannot be reached. *)
Definition mixed_failure : network :=
  responses (Raise JSONDecodeError) (Raise URLError).

(** The same installation with a snooze record written five days before
    the day of [example_env]. *)
Definition snoozed_files : gmap (list string) node :=
  <[ path_join PREFIX IGNORE_FILE := File "2024-02-25" ]> fresh_files.

(** The record file is removed from outside the application. *)
Definition remove_record (a : app) : app :=
  mkApp (mkScreen (widget (scr a))
           (delete (path_join (_base_folder (widget (scr a))) IGNORE_FILE)
              (files (scr a)))
           (dialogs (scr a)))
    (memo a) (warnings a) (worker_error a).

(** The user presses Ignore on the first of March 2024. *)
Definition ignore_env : environment :=
  mkEnvironment (mkDate 2024 3 1) false
    (catalogs ["v0.4.5"; "v0.4.4"; "v0.4.3"] ["0.4.2"; "0.4.3"])%string ButtonIgnore.

(** An item of the tags response with or without a ["name"] entry, and the
    tag the loop of [github_tags] appends for it: nothing without a name or
    with an empty one, else the name less one leading "v". *)
Definition named_item (name : option string) : json :=
  JObj (match name with
        | Some n => {[ "name"%string := JStr n ]}
        | None => ∅
        end).

Definition stored_tag (name : option string) : option string :=
  match name with
  | Some s =>
      if String.eqb s "" then None
      else Some (if startswith_v s then drop_first s else s)
  | None => None
  end.

(** [n] checks in a row in the same surroundings, as the timer and the
    button cause them. *)
Fixpoint checks (n : nat) (env : environment) (a : app) : app :=
  match n with
  | O => a
  | S n' => checks n' env (fst (check env a))
  end.

(** The record file is overwritten from outside with a text that is no
    date. *)
Definition scribble_record (a : app) : app :=
  mkApp (mkScreen (widget (scr a))
           (<[ path_join (_base_folder (widget (scr a))) IGNORE_FILE := File "later" ]>
              (files (scr a)))
           (dialogs (scr a)))
    (memo a) (warnings a) (worker_error a).

(** * Properties *)

(** ** The order of versions *)

Section Antisymmetry.
Context {A B : Type}.
Variable ca : A -> A -> comparison.
Variable cb : B -> B -> comparison.
Hypothesis ca_antisym : forall x y, ca y x = CompOpp (ca x y).
Hypothesis cb_antisym : forall x y, cb y x = CompOpp (cb x y).

Lemma lex_antisym (c1 c2 d1 d2 : comparison) :
  d1 = CompOpp c1 -> d2 = CompOpp c2 -> lex d1 d2 = CompOpp (lex c1 c2).
Proof. intros -> ->. destruct c1; reflexivity. Qed.

Lemma pair_cmp_antisym (x y : A * B) :
  pair_cmp ca cb y x = CompOpp (pair_cmp ca cb x y).
Proof. unfold pair_cmp. apply lex_antisym; auto. Qed.

Lemma tuple_cmp_antisym (x y : list A) :
  tuple_cmp ca y x = CompOpp (tuple_cmp ca x y).
Proof.
  revert y. induction x as [|a x IH]; intros [|b y]; simpl; try reflexivity.
  apply lex_antisym; auto.
Qed.

Lemma bound_cmp_antisym (x y : bound A) :
  bound_cmp ca y x = CompOpp (bound_cmp ca x y).
Proof. destruct x, y; simpl; auto. Qed.
End Antisymmetry.

Lemma letter_cmp_antisym (x y : string * N) :
  letter_cmp y x = CompOpp (letter_cmp x y).
Proof.
  apply pair_cmp_antisym.
  - intros a b. apply String.compare_antisym.
  - intros a b. apply N.compare_antisym.
Qed.

Lemma key_cmp_antisym (x y : Key) : key_cmp y x = CompOpp (key_cmp x y).
Proof.
  unfold key_cmp.
  repeat apply lex_antisym.
  - apply N.compare_antisym.
  - apply tuple_cmp_antisym. intros a b. apply N.compare_antisym.
  - apply bound_cmp_antisym, letter_cmp_antisym.
  - apply bound_cmp_antisym, letter_cmp_antisym.
  - apply bound_cmp_antisym, letter_cmp_antisym.
  - apply bound_cmp_antisym, tuple_cmp_antisym, pair_cmp_antisym.
    + apply bound_cmp_antisym. intros a b. apply N.compare_antisym.
    + intros a b. apply String.compare_antisym.
Qed.

(** [>] on versions is asymmetric, hence irreflexive. *)
Lemma version_gt_asym (a b : Version) :
  version_gt a b = true -> version_gt b a = false.
Proof.
  unfold version_gt. rewrite (key_cmp_antisym (_cmpkey a) (_cmpkey b)).
  destruct (key_cmp (_cmpkey a) (_cmpkey b)); simpl; congruence.
Qed.

Lemma version_gt_irrefl (a : Version) : version_gt a a = false.
Proof.
  destruct (version_gt a a) eqn:E; [|reflexivity].
  pose proof (version_gt_asym a a E). congruence.
Qed.

(** ** The fuel of the parser *)

Lemma span_length (p : ascii -> bool) (s a b : list ascii) :
  span p s = (a, b) -> (length b <= length s)%nat.
Proof.
  revert a b. induction s as [|c s IH]; intros a b; simpl.
  - intros [= <- <-]. reflexivity.
  - destruct (p c).
    + destruct (span p s) as [a' b'] eqn:E. intros [= <- <-].
      specialize (IH a' b' eq_refl). lia.
    + intros [= <- <-]. reflexivity.
Qed.

(** Any fuel that covers the length of the text gives the same release
    components, and the same local segments: the fuel the parser passes
    never runs out. *)
Lemma match_release_tail_fuel (fuel1 : nat) :
  forall (fuel2 : nat) (s : list ascii),
    (length s <= fuel1)%nat -> (length s <= fuel2)%nat ->
    match_release_tail fuel1 s = match_release_tail fuel2 s.
Proof.
  induction fuel1 as [|fuel1 IH]; intros fuel2 s H1 H2.
  - destruct s; [destruct fuel2; reflexivity | simpl in H1; lia].
  - destruct fuel2 as [|fuel2]; [destruct s; [reflexivity | simpl in H2; lia]|].
    destruct s as [|c rest]; [reflexivity|]. simpl.
    destruct (Ascii.eqb c "."); [|reflexivity].
    destruct (span is_digit rest) as [ds rest'] eqn:E.
    destruct ds; [reflexivity|].
    pose proof (span_length _ _ _ _ E). simpl in H1, H2.
    rewrite (IH fuel2 rest') by lia. reflexivity.
Qed.

Lemma match_local_tail_fuel (fuel1 : nat) :
  forall (fuel2 : nat) (s : list ascii),
    (length s <= fuel1)%nat -> (length s <= fuel2)%nat ->
    match_local_tail fuel1 s = match_local_tail fuel2 s.
Proof.
  induction fuel1 as [|fuel1 IH]; intros fuel2 s H1 H2.
  - destruct s; [destruct fuel2; reflexivity | simpl in H1; lia].
  - destruct fuel2 as [|fuel2]; [destruct s; [reflexivity | simpl in H2; lia]|].
    destruct s as [|c rest]; [reflexivity|]. simpl.
    destruct (is_sep c); [|reflexivity].
    destruct (span is_alnum rest) as [part rest'] eqn:E.
    destruct part; [reflexivity|].
    pose proof (span_length _ _ _ _ E). simpl in H1, H2.
    rewrite (IH fuel2 rest') by lia. reflexivity.
Qed.

(** ** The aggregator: selection *)

(** When both readers return and the last entries parse, the run compares
    the two versions once and yields one of them. *)
Lemma get_latest_version_ok (net : network) (c c1 c2 : caches)
    (gh_tags : list string) (cf_versions x : json) (y : string)
    (latest_version latest_tag : Version) :
  github_tags net c = (Ok gh_tags, c1) ->
  conda_forge_releases net c1 = (Ok cf_versions, c2) ->
  index_last cf_versions = Ok x -> parse_value x = Ok latest_version ->
  list_last gh_tags = Ok y -> parse y = Ok latest_tag ->
  get_latest_version net c =
    (mkRun [Compare latest_version latest_tag;
            if version_gt latest_version latest_tag
            then Yield CondaForge latest_version
            else Yield Tags latest_tag] None, c2).
Proof.
  intros Hgh Hcf Hx Hv Hy Ht. unfold get_latest_version.
  rewrite Hgh, Hcf. simpl. rewrite Hx. simpl. rewrite Hv, Hy. simpl. rewrite Ht.
  destruct (version_gt latest_version latest_tag); reflexivity.
Qed.

(** C1.  When both readers return and the last entry of each list parses,
    [get_latest_version] yields exactly one value, the greater of the two
    parsed versions, whichever catalog it came from: it is one of the two,
    neither of the two is greater than it, and a strictly greater version on
    either side is the one yielded.  In particular, with 0.4.0 installed,
    tags ending at 0.4.5 and a package index ending at 0.4.3, a check yields
    0.4.5, writes the update message with "0.4.5" as the current version
    into the label and opens the dialog with it. *)
Theorem get_latest_version_selects_greater :
  (forall (net : network) (c c1 c2 : caches) (gh_tags : list string)
      (cf_versions x : json) (y : string) (latest_version latest_tag : Version),
    github_tags net c = (Ok gh_tags, c1) ->
    conda_forge_releases net c1 = (Ok cf_versions, c2) ->
    index_last cf_versions = Ok x -> parse_value x = Ok latest_version ->
    list_last gh_tags = Ok y -> parse y = Ok latest_tag ->
    exists (src : catalog) (v : Version),
      get_latest_version net c =
        (mkRun [Compare latest_version latest_tag; Yield src v] None, c2) /\
      yields (fst (get_latest_version net c)) = [v] /\
      (v = latest_version \/ v = latest_tag) /\
      version_gt latest_version v = false /\
      version_gt latest_tag v = false /\
      (version_gt latest_version latest_tag = true -> v = latest_version) /\
      (version_gt latest_tag latest_version = true -> v = latest_tag))
  /\
  (exists (installed latest : Version) (self : UpdateChecker) (a : app),
    parse "0.4.0" = Ok installed /\
    parse "0.4.5" = Ok latest /\
    str latest = "0.4.5"%string /\
    __init__ "0.4.0" PREFIX = Ok self /\
    yields (fst (get_latest_version (net example_env) empty_caches)) = [latest] /\
    check example_env (start self fresh_files) = (a, None) /\
    label (widget (scr a)) = outdated_msg installed latest URL_PACKAGE /\
    dialogs (scr a) = [outdated_msg installed latest URL_PACKAGE]).
Proof.
  split.
  - intros net c c1 c2 gh_tags cf_versions x y latest_version latest_tag
      Hgh Hcf Hx Hv Hy Ht.
    pose proof (get_latest_version_ok _ _ _ _ _ _ _ _ _ _ Hgh Hcf Hx Hv Hy Ht) as Hrun.
    rewrite Hrun.
    destruct (version_gt latest_version latest_tag) eqn:E.
    + exists CondaForge, latest_version. repeat split; auto.
      * apply version_gt_irrefl.
      * apply version_gt_asym, E.
      * intros H. apply version_gt_asym in H. congruence.
    + exists Tags, latest_tag. repeat split; auto.
      * apply version_gt_irrefl.
      * congruence.
  - eexists _, _, _, _.
    repeat split; try (vm_compute; reflexivity).
Qed.

Lemma get_latest_version_selects_greater_witness :
  exists (src : catalog) (v : Version),
    get_latest_version (catalogs ["v1.2.0"] ["1.10.0"])%string empty_caches
      = (mkRun [Compare (mkVersion 0 [1; 10; 0]%N None None None None)
                        (mkVersion 0 [1; 2; 0]%N None None None None);
                Yield src v] None,
         mkCaches (Some ["1.2.0"%string]) (Some (JArr [JStr "1.10.0"]))) /\
    v = mkVersion 0 [1; 10; 0]%N None None None None.
Proof.
  destruct (proj1 get_latest_version_selects_greater
              (catalogs ["v1.2.0"] ["1.10.0"])%string empty_caches
              (mkCaches (Some ["1.2.0"%string]) None)
              (mkCaches (Some ["1.2.0"%string]) (Some (JArr [JStr "1.10.0"])))
              ["1.2.0"%string] (JArr [JStr "1.10.0"]) (JStr "1.10.0") "1.2.0"%string
              (mkVersion 0 [1; 10; 0]%N None None None None)
              (mkVersion 0 [1; 2; 0]%N None None None None)
              eq_refl eq_refl eq_refl eq_refl eq_refl eq_refl)
    as (src & v & Hrun & _ & _ & _ & _ & Hgt & _).
  exists src, v. split; [exact Hrun|]. apply Hgt. reflexivity.
Defined.

(** ** The aggregator: failures *)

(** The two readers fill separate memo tables: what [conda_forge_releases]
    returns does not depend on [github_tags] having run. *)
Lemma conda_after_tags (net : network) (c : caches) :
  fst (conda_forge_releases net (snd (github_tags net c)))
  = fst (conda_forge_releases net c).
Proof.
  unfold conda_forge_releases, github_tags.
  destruct (lru_cache (github_tags_body net) (github_tags_cache c)) as [r m].
  simpl.
  destruct (lru_cache (conda_forge_releases_body net) (conda_forge_releases_cache c)).
  reflexivity.
Qed.

(** A run that ends in the [except] clause. *)
Lemma get_latest_version_fetch_error (net : network) (c : caches) (e : exn) :
  (fst (github_tags net c) = Raise e \/
   ((exists gh_tags, fst (github_tags net c) = Ok gh_tags) /\
    fst (conda_forge_releases net c) = Raise e)) ->
  fst (get_latest_version net c) =
    if is_URLError e then mkRun [ShowWarning NETWORK_WARNING] None
    else mkRun [] (Some e).
Proof.
  intros H. pose proof (conda_after_tags net c) as Hcf.
  unfold get_latest_version.
  destruct (github_tags net c) as [tags c1] eqn:Hgh. simpl in *.
  destruct (conda_forge_releases net c1) as [cf c2]. simpl in *.
  destruct H as [-> | [[gh_tags ->] Hc]].
  - simpl. destruct (is_URLError e); reflexivity.
  - rewrite Hcf, Hc. simpl. destruct (is_URLError e); reflexivity.
Qed.

(** C2, as amended.  When the tags reader fails with an [HTTPError] or
    [URLError], or the tags reader returns and the conda-forge reader fails
    with one, the run shows exactly one warning, yields nothing, compares
    nothing and ends without an exception. *)
Theorem network_failure_warns_once (net : network) (c : caches) (e : exn) :
  is_URLError e = true ->
  (fst (github_tags net c) = Raise e \/
   ((exists gh_tags, fst (github_tags net c) = Ok gh_tags) /\
    fst (conda_forge_releases net c) = Raise e)) ->
  fst (get_latest_version net c) = mkRun [ShowWarning NETWORK_WARNING] None /\
  warnings_of (fst (get_latest_version net c)) = [NETWORK_WARNING] /\
  yields (fst (get_latest_version net c)) = [] /\
  comparisons (fst (get_latest_version net c)) = [] /\
  raised (fst (get_latest_version net c)) = None.
Proof.
  intros He H. rewrite (get_latest_version_fetch_error net c e H), He.
  repeat split.
Qed.

Lemma network_failure_warns_once_witness :
  fst (get_latest_version (responses (Ok (JArr [tag_item "v0.4.5"]))
                                     (Raise HTTPError)) empty_caches)
  = mkRun [ShowWarning NETWORK_WARNING] None.
Proof.
  apply (network_failure_warns_once
           (responses (Ok (JArr [tag_item "v0.4.5"])) (Raise HTTPError))
           empty_caches HTTPError).
  - reflexivity.
  - right. split; [exists ["0.4.5"%string]|]; reflexivity.
Defined.

(** C2, as stated, fails: the package index is unreachable, a network-layer
    error, but the tags reader fails first with a decoding error, which is
    not caught; the run raises and shows no warning. *)
Lemma network_failure_behind_tags_error :
  fst (github_tags mixed_failure empty_caches) = Raise JSONDecodeError /\
  fst (conda_forge_releases mixed_failure empty_caches) = Raise URLError /\
  is_URLError URLError = true /\
  raised (fst (get_latest_version mixed_failure empty_caches)) = Some JSONDecodeError /\
  warnings_of (fst (get_latest_version mixed_failure empty_caches)) = [].
Proof. repeat split. Qed.

(** [parse_value] fails with [InvalidVersion] or [TypeError], neither of
    them a network error. *)
Lemma parse_value_error (x : json) (e : exn) :
  parse_value x = Raise e -> is_URLError e = false.
Proof.
  destruct x; simpl; try (intros [= <-]; reflexivity).
  unfold parse. destruct (parse_chars _); intros [= <-]. reflexivity.
Qed.

(** C10, as amended.  When both readers return lists and one of them is
    empty, the run ends with an exception that is not a network error:
    nothing is yielded and no warning is shown.  The exception is the
    [IndexError] of [[-1]] when the conda-forge list is empty, and when the
    tag list is empty and the last conda-forge entry parses. *)
Theorem empty_catalog_raises (net : network) (c c1 c2 : caches)
    (gh_tags : list string) (cf_versions : list json) :
  github_tags net c = (Ok gh_tags, c1) ->
  conda_forge_releases net c1 = (Ok (JArr cf_versions), c2) ->
  gh_tags = [] \/ cf_versions = [] ->
  exists e : exn,
    get_latest_version net c = (mkRun [] (Some e), c2) /\
    is_URLError e = false /\
    (cf_versions = [] \/
     (exists x v, last cf_versions = Some x /\ parse_value x = Ok v) ->
     e = IndexError).
Proof.
  intros Hgh Hcf Hempty. unfold get_latest_version. rewrite Hgh, Hcf. simpl.
  destruct (last cf_versions) as [x|] eqn:Hlast; simpl.
  - destruct Hempty as [-> | ->]; [|discriminate Hlast].
    destruct (parse_value x) as [v|e] eqn:Hv; simpl.
    + exists IndexError. repeat split.
    + exists e. split; [reflexivity|]. split; [eapply parse_value_error, Hv|].
      intros [-> | (x' & v & [= <-] & Hv')]; [discriminate Hlast | congruence].
  - exists IndexError. repeat split.
Qed.

Lemma empty_catalog_raises_witness :
  get_latest_version (catalogs [] ["0.4.3"])%string empty_caches
  = (mkRun [] (Some IndexError),
     mkCaches (Some []) (Some (JArr [JStr "0.4.3"]))).
Proof.
  destruct (empty_catalog_raises (catalogs [] ["0.4.3"])%string empty_caches
              (mkCaches (Some []) None)
              (mkCaches (Some []) (Some (JArr [JStr "0.4.3"])))
              [] [JStr "0.4.3"] eq_refl eq_refl (or_introl eq_refl))
    as (e & Hrun & _ & He).
  rewrite Hrun, He; [reflexivity|].
  right. exists (JStr "0.4.3"), (mkVersion 0 [0; 4; 3]%N None None None None).
  split; reflexivity.
Defined.

(** C10, as stated, fails: the tag list is empty, but the last conda-forge
    entry is parsed first and is not a version, so the run ends with
    [InvalidVersion], not with the [IndexError] of [gh_tags[-1]]. *)
Lemma empty_tags_behind_invalid_version :
  github_tags (catalogs [] ["nightly"])%string empty_caches
    = (Ok [], mkCaches (Some []) None) /\
  raised (fst (get_latest_version (catalogs [] ["nightly"])%string empty_caches))
    = Some InvalidVersion.
Proof. split; reflexivity. Qed.

(** ** The aggregator: ties *)

Lemma version_eq_not_gt (a b : Version) :
  version_eq a b = true -> version_gt a b = false.
Proof.
  unfold version_eq, version_gt.
  destruct (key_cmp (_cmpkey a) (_cmpkey b)); congruence.
Qed.

(** C8, as amended.  When the two catalogs report the same latest version,
    as the same string or as two strings that compare equal, the value
    yielded is [latest_tag], the one parsed from the first source, the tags:
    the conda-forge value is yielded only when it is strictly greater. *)
Theorem tie_yields_latest_tag (net : network) (c c1 c2 : caches)
    (gh_tags : list string) (cf_versions x : json) (y : string)
    (latest_version latest_tag : Version) :
  github_tags net c = (Ok gh_tags, c1) ->
  conda_forge_releases net c1 = (Ok cf_versions, c2) ->
  index_last cf_versions = Ok x -> parse_value x = Ok latest_version ->
  list_last gh_tags = Ok y -> parse y = Ok latest_tag ->
  x = JStr y \/ version_eq latest_version latest_tag = true ->
  get_latest_version net c =
    (mkRun [Compare latest_version latest_tag; Yield Tags latest_tag] None, c2).
Proof.
  intros Hgh Hcf Hx Hv Hy Ht Htie.
  rewrite (get_latest_version_ok _ _ _ _ _ _ _ _ _ _ Hgh Hcf Hx Hv Hy Ht).
  assert (E : version_gt latest_version latest_tag = false).
  { destruct Htie as [-> | Heq]; [|apply version_eq_not_gt, Heq].
    simpl in Hv. rewrite Hv in Ht. injection Ht as ->. apply version_gt_irrefl. }
  rewrite E. reflexivity.
Qed.

Lemma tie_yields_latest_tag_witness :
  get_latest_version (catalogs ["v0.5.0"; "v0.4.19"] ["0.4.19"; "0.5.0"])%string
    empty_caches
  = (mkRun [Compare (mkVersion 0 [0; 5; 0]%N None None None None)
                    (mkVersion 0 [0; 5; 0]%N None None None None);
            Yield Tags (mkVersion 0 [0; 5; 0]%N None None None None)] None,
     mkCaches (Some ["0.4.19"; "0.5.0"]%string)
              (Some (JArr [JStr "0.4.19"; JStr "0.5.0"]))).
Proof.
  apply (tie_yields_latest_tag
           (catalogs ["v0.5.0"; "v0.4.19"] ["0.4.19"; "0.5.0"])%string empty_caches
           (mkCaches (Some ["0.4.19"; "0.5.0"]%string) None)
           (mkCaches (Some ["0.4.19"; "0.5.0"]%string)
                     (Some (JArr [JStr "0.4.19"; JStr "0.5.0"])))
           ["0.4.19"; "0.5.0"]%string (JArr [JStr "0.4.19"; JStr "0.5.0"])
           (JStr "0.5.0") "0.5.0"%string
           (mkVersion 0 [0; 5; 0]%N None None None None)
           (mkVersion 0 [0; 5; 0]%N None None None None)
           eq_refl eq_refl eq_refl eq_refl eq_refl eq_refl (or_introl eq_refl)).
Defined.

(** C8, as stated, fails.  With 0.5.0 as the latest version of both
    catalogs the run takes the [else] branch and yields the object parsed
    from the tags, not the one from conda-forge.  The difference shows when
    the two spellings differ: for the tag v0.5 and the conda-forge version
    0.5.0, equal as versions, the value yielded prints as "0.5". *)
Lemma tie_does_not_yield_conda_forge :
  (exists v : Version,
     trace (fst (get_latest_version (catalogs ["v0.5.0"] ["0.5.0"])%string empty_caches))
     = [Compare v v; Yield Tags v]) /\
  (exists latest_version latest_tag : Version,
     parse "0.5.0" = Ok latest_version /\ parse "0.5" = Ok latest_tag /\
     version_eq latest_version latest_tag = true /\
     latest_version <> latest_tag /\
     yields (fst (get_latest_version (catalogs ["v0.5"] ["0.5.0"])%string empty_caches))
       = [latest_tag] /\
     str latest_tag = "0.5"%string /\ str latest_version = "0.5.0"%string).
Proof.
  split.
  - eexists. vm_compute. reflexivity.
  - eexists _, _. repeat split; try (vm_compute; reflexivity).
    vm_compute. discriminate.
Qed.

(** ** The aggregator: the "v" prefix *)

Lemma py_get_tag_item (name : string) :
  py_get (tag_item name) "name" JNull = Ok (JStr name).
Proof. unfold py_get, tag_item. rewrite lookup_singleton_eq. reflexivity. Qed.

Lemma truthy_JStr (s : string) : s <> ""%string -> truthy (JStr s) = true.
Proof. destruct s; [congruence | reflexivity]. Qed.

(** The loop of [github_tags] stores the name without its "v". *)
Lemma github_tags_loop_prefixed (names versions : list string) :
  github_tags_loop (map tag_item (map (String "v") names)) versions
  = Ok (versions ++ names).
Proof.
  revert versions.
  induction names as [|s names IH]; intros versions; cbn [map github_tags_loop].
  - rewrite app_nil_r. reflexivity.
  - rewrite py_get_tag_item. simpl. rewrite IH, <- app_assoc. reflexivity.
Qed.

Lemma github_tags_loop_unprefixed (names versions : list string) :
  Forall (fun s => s <> ""%string /\ startswith_v s = false) names ->
  github_tags_loop (map tag_item names) versions = Ok (versions ++ names).
Proof.
  intros H. revert versions.
  induction H as [|s names [Hne Hv] _ IH]; intros versions;
    cbn [map github_tags_loop].
  - rewrite app_nil_r. reflexivity.
  - rewrite py_get_tag_item. cbn [rbind]. rewrite (truthy_JStr s Hne), Hv.
    rewrite IH, <- app_assoc. reflexivity.
Qed.

(** [get_latest_version] sees the network through the two bodies only. *)
Lemma get_latest_version_ext (net net' : network) (c : caches) :
  github_tags_body net = github_tags_body net' ->
  conda_forge_releases_body net = conda_forge_releases_body net' ->
  get_latest_version net c = get_latest_version net' c.
Proof.
  intros Hgh Hcf.
  unfold get_latest_version, github_tags, conda_forge_releases.
  rewrite Hgh, Hcf. reflexivity.
Qed.

(** [Version] itself accepts a leading "v". *)
Lemma parse_v_prefix (c : ascii) (s : string) :
  is_space c = false -> Ascii.eqb (lower c) "v" = false ->
  parse (String "v" (String c s)) = parse (String c s).
Proof.
  intros Hs Hv. unfold parse, parse_chars. simpl.
  rewrite Hs. simpl. rewrite Hv. reflexivity.
Qed.

(** C7.  A tag name with a leading "v" is stored without it before anything
    is parsed, so that a tag list spelled with the prefix and the same list
    spelled without it give the same list of tags and the same run of
    [get_latest_version], with the same comparison.  [Version] itself skips
    a leading "v" as well, for the entries that are not stripped: "v0.5.0"
    and "0.5.0" parse to the same version, which compares equal to
    itself. *)
Theorem v_prefix_is_stripped :
  (forall (names : list string) (conda : result json) (c : caches),
     Forall (fun s => s <> ""%string /\ startswith_v s = false) names ->
     github_tags_body
       (responses (Ok (JArr (map tag_item (map (String "v") names)))) conda)
       = Ok (rev names) /\
     github_tags_body (responses (Ok (JArr (map tag_item names))) conda)
       = Ok (rev names) /\
     get_latest_version
       (responses (Ok (JArr (map tag_item (map (String "v") names)))) conda) c
     = get_latest_version (responses (Ok (JArr (map tag_item names))) conda) c)
  /\
  (forall (ch : ascii) (s : string),
     is_space ch = false -> Ascii.eqb (lower ch) "v" = false ->
     parse (String "v" (String ch s)) = parse (String ch s))
  /\
  (exists v : Version,
     parse "v0.5.0" = Ok v /\ parse "0.5.0" = Ok v /\ version_eq v v = true).
Proof.
  split; [|split].
  - intros names conda c H.
    assert (Hp : github_tags_body
                   (responses (Ok (JArr (map tag_item (map (String "v") names)))) conda)
                 = Ok (rev names)).
    { unfold github_tags_body, responses. simpl.
      rewrite github_tags_loop_prefixed. reflexivity. }
    assert (Hu : github_tags_body (responses (Ok (JArr (map tag_item names))) conda)
                 = Ok (rev names)).
    { unfold github_tags_body, responses. simpl.
      rewrite (github_tags_loop_unprefixed names [] H). reflexivity. }
    repeat split; [exact Hp | exact Hu |].
    apply get_latest_version_ext; [congruence | reflexivity].
  - exact parse_v_prefix.
  - eexists. repeat split; vm_compute; reflexivity.
Qed.

Lemma v_prefix_is_stripped_witness :
  get_latest_version
    (responses (Ok (JArr (map tag_item ["v0.5.0"; "v0.4.19"]%string)))
               (Ok (JObj {[ "versions"%string := JArr [JStr "0.4.19"] ]})))
    empty_caches
  = get_latest_version
      (responses (Ok (JArr (map tag_item ["0.5.0"; "0.4.19"]%string)))
                 (Ok (JObj {[ "versions"%string := JArr [JStr "0.4.19"] ]})))
      empty_caches /\
  parse "v1.0rc1" = parse "1.0rc1".
Proof.
  split.
  - apply (proj1 v_prefix_is_stripped ["0.5.0"; "0.4.19"]%string
             (Ok (JObj {[ "versions"%string := JArr [JStr "0.4.19"] ]}))
             empty_caches).
    repeat constructor; discriminate.
  - apply (proj1 (proj2 v_prefix_is_stripped) "1"%char ".0rc1"%string); reflexivity.
Defined.

(** ** Dates *)

Lemma digit_value_digit_char (n : Z) :
  0 <= n <= 9 -> digit_value (digit_char n) = Some n.
Proof.
  intros H. rewrite <- (Z2Nat.id n) at 2 by lia.
  assert (Hk : (Z.to_nat n < 10)%nat) by lia.
  unfold digit_char. generalize dependent (Z.to_nat n). intros k Hk.
  do 10 (destruct k as [|k]; [reflexivity|]). lia.
Qed.

Lemma decimal_digit (n k : Z) : 0 <= n -> 0 < k -> 0 <= n / k mod 10 <= 9.
Proof.
  intros Hn Hk. pose proof (Z.mod_pos_bound (n / k) 10). lia.
Qed.

Lemma four_digits (y : Z) :
  0 <= y <= 9999 ->
  1000 * (y / 1000 mod 10) + 100 * (y / 100 mod 10) + 10 * (y / 10 mod 10) + y mod 10 = y.
Proof. intros H. Z.to_euclidean_division_equations. lia. Qed.

Lemma two_digits (m : Z) : 0 <= m <= 99 -> 10 * (m / 10 mod 10) + m mod 10 = m.
Proof. intros H. Z.to_euclidean_division_equations. lia. Qed.

Lemma days_in_month_bound (y m : Z) : _days_in_month y m <= 31.
Proof.
  unfold _days_in_month.
  repeat match goal with |- context [if ?b then _ else _] => destruct b end; lia.
Qed.

(** A decimal digit is an ASCII character that is neither a [W] nor a
    carriage return. *)
Lemma digit_char_plain (k : Z) :
  0 <= k <= 9 ->
  Ascii.eqb (digit_char k) "W" = false /\
  Ascii.eqb (digit_char k) "-" = false /\
  Ascii.eqb (digit_char k) (ascii_of_nat 13) = false /\
  byte_in 0 127 (digit_char k) = true.
Proof.
  intros H. assert (Hk : (Z.to_nat k < 10)%nat) by lia.
  unfold digit_char. generalize dependent (Z.to_nat k). intros n Hn.
  do 10 (destruct n as [|n]; [repeat split|]). lia.
Qed.

Lemma parse_digits_from_digit (n : nat) (acc k : Z) (rest : list ascii) :
  0 <= k <= 9 ->
  parse_digits_from (S n) acc (digit_char k :: rest)
  = parse_digits_from n (10 * acc + k) rest.
Proof.
  intros H. cbn [parse_digits_from]. rewrite (digit_value_digit_char k H). reflexivity.
Qed.

(** The calendar form with separators, as [isoformat] writes it. *)
Lemma parse_isoformat_date_calendar (a b c e f g h i : Z) :
  0 <= a <= 9 -> 0 <= b <= 9 -> 0 <= c <= 9 -> 0 <= e <= 9 ->
  0 <= f <= 9 -> 0 <= g <= 9 -> 0 <= h <= 9 -> 0 <= i <= 9 ->
  parse_isoformat_date
    [digit_char a; digit_char b; digit_char c; digit_char e; "-"%char;
     digit_char f; digit_char g; "-"%char; digit_char h; digit_char i]
  = Some (mkDate (1000 * a + 100 * b + 10 * c + e) (10 * f + g) (10 * h + i)).
Proof.
  intros Ha Hb Hc He Hf Hg Hh Hi.
  destruct (digit_char_plain f Hf) as (HW & _).
  unfold parse_isoformat_date, parse_digits.
  rewrite !parse_digits_from_digit by assumption.
  cbn [parse_digits_from tl].
  change (Ascii.eqb "-" "-") with true. cbn [tl]. rewrite HW.
  rewrite !digit_value_digit_char by assumption.
  change (Ascii.eqb "-" "-") with true. cbn iota.
  rewrite !digit_value_digit_char by assumption.
  f_equal. f_equal; lia.
Qed.

(** A date written by [isoformat] is read back by [fromisoformat]. *)
Lemma fromisoformat_isoformat (d : date) :
  valid d = true -> fromisoformat (isoformat d) = Some d.
Proof.
  intros Hvalid. destruct d as [y m dd].
  assert (Hb : (1 <= y <= 9999) /\ (1 <= m <= 12) /\ (1 <= dd <= 31)).
  { unfold valid in Hvalid. simpl in Hvalid.
    pose proof (days_in_month_bound y m). lia. }
  destruct Hb as (Hy & Hm & Hd).
  unfold fromisoformat, isoformat.
  rewrite list_ascii_of_string_of_list_ascii.
  cbn [year month day length Nat.eqb orb].
  rewrite parse_isoformat_date_calendar.
  2-9: first [ apply decimal_digit; lia
             | pose proof (Z.mod_pos_bound y 10); pose proof (Z.mod_pos_bound m 10);
               pose proof (Z.mod_pos_bound dd 10); lia ].
  rewrite four_digits, !two_digits by lia.
  rewrite Hvalid. reflexivity.
Qed.

(** The text [isoformat] writes is plain ASCII without line ends: reading
    the file gives it back. *)
Lemma read_isoformat (d : date) :
  valid d = true -> read (isoformat d) = Ok (isoformat d).
Proof.
  intros Hvalid. destruct d as [y m dd].
  assert (Hb : (1 <= y <= 9999) /\ (1 <= m <= 12) /\ (1 <= dd <= 31)).
  { unfold valid in Hvalid. simpl in Hvalid.
    pose proof (days_in_month_bound y m). lia. }
  destruct Hb as (Hy & Hm & Hd).
  unfold read, isoformat. rewrite list_ascii_of_string_of_list_ascii.
  cbn [year month day].
  assert (H1 : 0 <= y / 1000 mod 10 <= 9) by (apply decimal_digit; lia).
  assert (H2 : 0 <= y / 100 mod 10 <= 9) by (apply decimal_digit; lia).
  assert (H3 : 0 <= y / 10 mod 10 <= 9) by (apply decimal_digit; lia).
  assert (H4 : 0 <= y mod 10 <= 9) by (pose proof (Z.mod_pos_bound y 10); lia).
  assert (H5 : 0 <= m / 10 mod 10 <= 9) by (apply decimal_digit; lia).
  assert (H6 : 0 <= m mod 10 <= 9) by (pose proof (Z.mod_pos_bound m 10); lia).
  assert (H7 : 0 <= dd / 10 mod 10 <= 9) by (apply decimal_digit; lia).
  assert (H8 : 0 <= dd mod 10 <= 9) by (pose proof (Z.mod_pos_bound dd 10); lia).
  destruct (digit_char_plain _ H1) as (_ & _ & R1 & A1).
  destruct (digit_char_plain _ H2) as (_ & _ & R2 & A2).
  destruct (digit_char_plain _ H3) as (_ & _ & R3 & A3).
  destruct (digit_char_plain _ H4) as (_ & _ & R4 & A4).
  destruct (digit_char_plain _ H5) as (_ & _ & R5 & A5).
  destruct (digit_char_plain _ H6) as (_ & _ & R6 & A6).
  destruct (digit_char_plain _ H7) as (_ & _ & R7 & A7).
  destruct (digit_char_plain _ H8) as (_ & _ & R8 & A8).
  cbn [utf8_valid universal_newlines].
  rewrite A1, A2, A3, A4, A5, A6, A7, A8, R1, R2, R3, R4, R5, R6, R7, R8.
  reflexivity.
Qed.

(** What the snooze action writes is what the next check reads. *)
Lemma record_date_isoformat (d : date) :
  valid d = true -> record_date (isoformat d) = Some d.
Proof.
  intros Hvalid. unfold record_date.
  rewrite (read_isoformat d Hvalid). apply fromisoformat_isoformat, Hvalid.
Qed.

(** ** The snooze record: reading *)

Lemma lookup_node_join (fs : gmap (list string) node) (base : path) (name : string) :
  lookup_node fs (path_join base name) = fs !! path_join base name.
Proof.
  unfold lookup_node, path_join.
  destruct (base ++ [name]) eqn:E; [|reflexivity].
  destruct base; discriminate E.
Qed.

(** The four ways through [_check_time]. *)
Lemma _check_time_absent (self : UpdateChecker) (fs : gmap (list string) node)
    (now : date) :
  fs !! path_join (_base_folder self) IGNORE_FILE = None ->
  _check_time self fs now = Ok (false, self, fs).
Proof.
  intros H. unfold _check_time, path_exists.
  rewrite lookup_node_join, H. reflexivity.
Qed.

Lemma _check_time_recent (self : UpdateChecker) (fs : gmap (list string) node)
    (now old_date : date) (content : string) :
  fs !! path_join (_base_folder self) IGNORE_FILE = Some (File content) ->
  record_date content = Some old_date ->
  days_between now old_date < IGNORE_DAYS ->
  _check_time self fs now = Ok (true, set_snoozed self true, fs).
Proof.
  intros Hfile Hdate Hage. unfold _check_time, path_exists, open_read.
  rewrite lookup_node_join, Hfile. simpl. rewrite Hdate.
  apply Z.ltb_lt in Hage. rewrite Hage. reflexivity.
Qed.

Lemma _check_time_stale (self : UpdateChecker) (fs : gmap (list string) node)
    (now old_date : date) (content : string) :
  fs !! path_join (_base_folder self) IGNORE_FILE = Some (File content) ->
  record_date content = Some old_date ->
  IGNORE_DAYS <= days_between now old_date ->
  _check_time self fs now =
    Ok (false, set_snoozed self false,
        delete (path_join (_base_folder self) IGNORE_FILE) fs).
Proof.
  intros Hfile Hdate Hage. unfold _check_time, path_exists, open_read, os_remove.
  rewrite lookup_node_join, Hfile. simpl. rewrite Hdate.
  apply Z.ltb_ge in Hage. rewrite Hage. reflexivity.
Qed.

Lemma _check_time_corrupt (self : UpdateChecker) (fs : gmap (list string) node)
    (now : date) (content : string) :
  fs !! path_join (_base_folder self) IGNORE_FILE = Some (File content) ->
  record_date content = None ->
  _check_time self fs now =
    Ok (false, self, delete (path_join (_base_folder self) IGNORE_FILE) fs).
Proof.
  intros Hfile Hdate. unfold _check_time, path_exists, open_read, os_remove.
  rewrite lookup_node_join, Hfile. simpl. rewrite Hdate. reflexivity.
Qed.





(** ** The snooze record: writing *)

(** [makedirs] succeeds when no file lies on the way; afterwards every
    directory on the way exists and nothing else has changed. *)
Lemma makedirs_from_spec (names : list string) :
  forall (fs : gmap (list string) node) (above : path),
    (forall q k c, names = q ++ k -> q <> [] -> fs !! (above ++ q) <> Some (File c)) ->
    exists fs',
      makedirs_from fs above names = Ok fs' /\
      (forall q k, names = q ++ k -> q <> [] -> fs' !! (above ++ q) = Some Dir) /\
      (forall p, (forall q k, names = q ++ k -> q <> [] -> p <> above ++ q) ->
                 fs' !! p = fs !! p).
Proof.
  induction names as [|name rest IH]; intros fs above Hfree.
  - exists fs. split; [reflexivity|]. split; [|reflexivity].
    intros q k E Hq. symmetry in E. apply app_eq_nil in E as [-> _]. congruence.
  - cbn [makedirs_from].
    assert (Hlonger : forall q : list string,
               q <> [] -> (above ++ [name]) ++ q <> above ++ [name]).
    { intros q Hq E. apply (f_equal length) in E. rewrite !length_app in E.
      destruct q; [congruence | simpl in E; lia]. }
    assert (Hstep : forall fs1 : gmap (list string) node,
               fs1 !! (above ++ [name]) = Some Dir ->
               (forall p, p <> above ++ [name] -> fs1 !! p = fs !! p) ->
               exists fs',
                 makedirs_from fs1 (above ++ [name]) rest = Ok fs' /\
                 (forall q k, name :: rest = q ++ k -> q <> [] ->
                              fs' !! (above ++ q) = Some Dir) /\
                 (forall p, (forall q k, name :: rest = q ++ k -> q <> [] ->
                                         p <> above ++ q) ->
                            fs' !! p = fs !! p)).
    { intros fs1 Hdir Hsame.
      destruct (IH fs1 (above ++ [name])) as (fs' & Hrun & Hdirs & Hframe).
      { intros q k c E Hq. rewrite Hsame by (apply Hlonger, Hq).
        rewrite <- app_assoc. apply (Hfree (name :: q) k c); [|discriminate].
        simpl. rewrite E. reflexivity. }
      exists fs'. split; [exact Hrun|]. split.
      - intros q k E Hq. destruct q as [|n q]; [congruence|].
        simpl in E. injection E as <- E.
        destruct q as [|n' q].
        + rewrite Hframe; [exact Hdir|].
          intros q' k' _ Hq' E'. symmetry in E'. revert E'. apply Hlonger, Hq'.
        + change (above ++ name :: n' :: q) with (above ++ [name] ++ (n' :: q)).
          rewrite app_assoc. apply (Hdirs (n' :: q) k E). discriminate.
      - intros p Hp. rewrite Hframe.
        + apply Hsame. apply (Hp [name] rest); [reflexivity | discriminate].
        + intros q k E Hq. rewrite <- app_assoc.
          apply (Hp (name :: q) k); [|discriminate]. simpl. rewrite E. reflexivity. }
    destruct (fs !! (above ++ [name])) as [[content|]|] eqn:Hhere.
    + exfalso. apply (Hfree [name] rest content); [reflexivity | discriminate | exact Hhere].
    + apply Hstep; [exact Hhere | reflexivity].
    + apply Hstep.
      * apply lookup_insert_eq.
      * intros p Hp. apply lookup_insert_ne. congruence.
Qed.

(** The record path is longer than every directory on the way to it. *)
Lemma record_not_on_the_way (base q k : list string) (name : string) :
  base = q ++ k -> path_join base name <> q.
Proof.
  intros -> E. apply (f_equal length) in E. unfold path_join in E.
  rewrite !length_app in E. simpl in E. lia.
Qed.

(** The snooze action, the [Ignore] branch of [show_version_info]: unless a
    file stands where a directory of the installation path is needed, or a
    directory where the record goes, the directories are made and the record
    holds today's date and nothing else. *)
Lemma snooze_writes_record (env : environment) (s : screen) (latest_version : Version) :
  version_gt latest_version (_current_version (widget s)) = true ->
  _snoozed (widget s) = false ->
  exec_ env = ButtonIgnore ->
  (forall q k c, _base_folder (widget s) = q ++ k -> q <> [] ->
                 files s !! q <> Some (File c)) ->
  files s !! path_join (_base_folder (widget s)) IGNORE_FILE <> Some Dir ->
  exists (s' : screen) (fs1 : gmap (list string) node),
    show_version_info env s latest_version = (s', None) /\
    makedirs (files s) (_base_folder (widget s)) = Ok fs1 /\
    files s' = <[ path_join (_base_folder (widget s)) IGNORE_FILE
                  := File (isoformat (today env)) ]> fs1 /\
    (forall q k, _base_folder (widget s) = q ++ k -> q <> [] ->
                 files s' !! q = Some Dir) /\
    _base_folder (widget s') = _base_folder (widget s) /\
    _snoozed (widget s') = false.
Proof.
  intros Hgt Hsn Hbtn Hfree Hrec.
  destruct (makedirs_from_spec (_base_folder (widget s)) (files s) [])
    as (fs1 & Hmk & Hdirs & Hframe).
  { intros q k c E Hq. simpl. apply (Hfree q k c E Hq). }
  set (p := path_join (_base_folder (widget s)) IGNORE_FILE) in *.
  assert (Hw : open_write fs1 p (isoformat (today env))
               = Ok (<[ p := File (isoformat (today env)) ]> fs1)).
  { unfold open_write. subst p. unfold path_join at 1. rewrite removelast_last.
    assert (Hbase : lookup_node fs1 (_base_folder (widget s)) = Some Dir).
    { unfold lookup_node. destruct (_base_folder (widget s)) as [|n l] eqn:E;
        [reflexivity|].
      apply (Hdirs (n :: l) []); [rewrite app_nil_r; reflexivity | discriminate]. }
    rewrite Hbase, lookup_node_join, Hframe.
    - match goal with
      | |- context [match ?x with _ => _ end] => destruct x as [[content|]|] eqn:Hx
      end; [reflexivity | exfalso; apply Hrec; exact Hx | reflexivity].
    - intros q k E Hq. simpl. apply (record_not_on_the_way _ q k _ E). }
  eexists _, fs1. unfold show_version_info.
  rewrite Hgt. cbn [setText _snoozed _base_folder]. rewrite Hsn, Hbtn.
  cbn [negb]. unfold makedirs in *. rewrite Hmk. fold p. rewrite Hw.
  split; [reflexivity|]. split; [reflexivity|]. split; [reflexivity|].
  split; [|split; [reflexivity | exact Hsn]].
  intros q k E Hq. cbn [files]. rewrite lookup_insert_ne.
  - apply (Hdirs q k E Hq).
  - subst p. apply (record_not_on_the_way _ q k _ E).
Qed.

(** C4.  When the user answers the dialog with Ignore (and no file stands in
    the way of the installation directory, no directory in the way of the
    record), [show_version_info] makes the missing directories and leaves
    today's date as the whole content of the record file, whatever was there
    before.  A [_check_time] on the same day, or on any day less than 21
    days later, returns [True] and keeps the record; on a day 21 or more
    days later it returns [False]. *)
Theorem snooze_then_check (env : environment) (s : screen) (latest_version : Version) :
  version_gt latest_version (_current_version (widget s)) = true ->
  _snoozed (widget s) = false ->
  exec_ env = ButtonIgnore ->
  valid (today env) = true ->
  (forall q k c, _base_folder (widget s) = q ++ k -> q <> [] ->
                 files s !! q <> Some (File c)) ->
  files s !! path_join (_base_folder (widget s)) IGNORE_FILE <> Some Dir ->
  exists s' : screen,
    show_version_info env s latest_version = (s', None) /\
    files s' !! path_join (_base_folder (widget s)) IGNORE_FILE
      = Some (File (isoformat (today env))) /\
    (forall q k, _base_folder (widget s) = q ++ k -> q <> [] ->
                 files s' !! q = Some Dir) /\
    _check_time (widget s') (files s') (today env)
      = Ok (true, set_snoozed (widget s') true, files s') /\
    (forall now, days_between now (today env) < 21 ->
       _check_time (widget s') (files s') now
         = Ok (true, set_snoozed (widget s') true, files s')) /\
    (forall now, 21 <= days_between now (today env) ->
       _check_time (widget s') (files s') now
         = Ok (false, set_snoozed (widget s') false,
               delete (path_join (_base_folder (widget s)) IGNORE_FILE) (files s'))).
Proof.
  intros Hgt Hsn Hbtn Hvalid Hfree Hrec.
  destruct (snooze_writes_record env s latest_version Hgt Hsn Hbtn Hfree Hrec)
    as (s' & fs1 & Hshow & _ & Hfiles & Hdirs & Hbase & _).
  assert (Hfile : files s' !! path_join (_base_folder (widget s')) IGNORE_FILE
                  = Some (File (isoformat (today env)))).
  { rewrite Hbase, Hfiles. apply lookup_insert_eq. }
  pose proof (record_date_isoformat (today env) Hvalid) as Hdate.
  exists s'. split; [exact Hshow|]. split; [rewrite <- Hbase; exact Hfile|].
  split; [exact Hdirs|]. split; [|split].
  - apply (_check_time_recent _ _ _ _ _ Hfile Hdate).
    unfold days_between, IGNORE_DAYS. lia.
  - intros now Hage. apply (_check_time_recent _ _ _ _ _ Hfile Hdate Hage).
  - intros now Hage. rewrite <- Hbase.
    apply (_check_time_stale _ _ _ _ _ Hfile Hdate Hage).
Qed.

Lemma snooze_then_check_witness :
  exists s' : screen,
    show_version_info ignore_env
      (mkScreen (mkUpdateChecker (mkVersion 0 [0; 4; 0]%N None None None None)
                   None PREFIX false "") ∅ [])
      (mkVersion 0 [0; 4; 5]%N None None None None) = (s', None) /\
    files s' !! path_join PREFIX IGNORE_FILE = Some (File "2024-03-01") /\
    (exists self' fs', _check_time (widget s') (files s') (mkDate 2024 3 21)
                       = Ok (true, self', fs')) /\
    (exists self' fs', _check_time (widget s') (files s') (mkDate 2024 3 22)
                       = Ok (false, self', fs')).
Proof.
  destruct (snooze_then_check ignore_env
              (mkScreen (mkUpdateChecker (mkVersion 0 [0; 4; 0]%N None None None None)
                           None PREFIX false "") ∅ [])
              (mkVersion 0 [0; 4; 5]%N None None None None))
    as (s' & Hshow & Hfile & _ & _ & Hin & Hout);
    try reflexivity.
  - intros q k c _ _. cbn [files]. rewrite lookup_empty. discriminate.
  - cbn [files]. rewrite lookup_empty. discriminate.
  - exists s'. split; [exact Hshow|]. split; [exact Hfile|]. split.
    + eexists _, _. apply (Hin (mkDate 2024 3 21)). reflexivity.
    + eexists _, _. apply (Hout (mkDate 2024 3 22)). discriminate.
Defined.

(** ** The outcome of a check *)

(** A run has one of three shapes: it raises, it warns, or it compares once
    and yields once. *)
Lemma get_latest_version_shapes (net : network) (c : caches) :
  (exists e, fst (get_latest_version net c) = mkRun [] (Some e)) \/
  fst (get_latest_version net c) = mkRun [ShowWarning NETWORK_WARNING] None \/
  (exists a b src v,
     fst (get_latest_version net c) = mkRun [Compare a b; Yield src v] None).
Proof.
  unfold get_latest_version.
  destruct (github_tags net c) as [tags c1].
  destruct (conda_forge_releases net c1) as [cf c2].
  destruct tags as [gh_tags|e]; simpl.
  - destruct cf as [cf_versions|e]; simpl.
    + destruct (index_last cf_versions) as [x|e]; simpl; [|eauto].
      destruct (parse_value x) as [latest_version|e]; [|eauto].
      destruct (list_last gh_tags) as [y|e]; simpl; [|eauto].
      destruct (parse y) as [latest_tag|e]; [|eauto].
      destruct (version_gt latest_version latest_tag); simpl; eauto 10.
    + destruct (is_URLError e); simpl; eauto.
  - destruct (is_URLError e); simpl; eauto.
Qed.

(** The effect of [show_version_info] on the label and on the dialogs when
    the remote version is the greater one. *)
Lemma show_version_info_outdated (env : environment) (s : screen)
    (latest_version : Version) :
  version_gt latest_version (_current_version (widget s)) = true ->
  label (widget (fst (show_version_info env s latest_version)))
    = outdated_msg (_current_version (widget s)) latest_version
        (if ON_BUNDLE env then URL_BUNDLE else URL_PACKAGE) /\
  dialogs (fst (show_version_info env s latest_version))
    = (if _snoozed (widget s) then dialogs s
       else dialogs s ++ [outdated_msg (_current_version (widget s)) latest_version
                            (if ON_BUNDLE env then URL_BUNDLE else URL_PACKAGE)]) /\
  _snoozed (widget (fst (show_version_info env s latest_version)))
    = _snoozed (widget s) /\
  (_snoozed (widget s) = true ->
   show_version_info env s latest_version
   = (mkScreen (setText (widget s)
                  (outdated_msg (_current_version (widget s)) latest_version
                     (if ON_BUNDLE env then URL_BUNDLE else URL_PACKAGE)))
        (files s) (dialogs s), None)).
Proof.
  intros Hgt. unfold show_version_info. rewrite Hgt.
  cbn [setText _snoozed _base_folder].
  destruct (_snoozed (widget s)) eqn:Hsn; cbn [negb];
    [| destruct (exec_ env);
       [| destruct (makedirs (files s) (_base_folder (widget s))) as [fs1|e];
          [match goal with
           | |- context [open_write ?f ?q ?t] => destruct (open_write f q t)
           end |]]];
    repeat split; simpl; first [assumption | discriminate | reflexivity].
Qed.

(** A check in which the run yields one greater version while the flag
    [_snoozed] ends up set: the label is written, no dialog opens. *)
Lemma check_snoozed (env : environment) (a : app) (self' : UpdateChecker)
    (fs' : gmap (list string) node) (answer : bool) (latest_version : Version) :
  _check_time (widget (scr a)) (files (scr a)) (today env) = Ok (answer, self', fs') ->
  _snoozed self' = true ->
  yields (fst (get_latest_version (net env) (memo a))) = [latest_version] ->
  version_gt latest_version (_current_version self') = true ->
  snd (check env a) = None /\
  dialogs (scr (fst (check env a))) = dialogs (scr a) /\
  label (widget (scr (fst (check env a))))
    = outdated_msg (_current_version self') latest_version
        (if ON_BUNDLE env then URL_BUNDLE else URL_PACKAGE) /\
  files (scr (fst (check env a))) = fs' /\
  _snoozed (widget (scr (fst (check env a)))) = true.
Proof.
  intros Hct Hsn Hy Hgt. unfold check. rewrite Hct.
  destruct (get_latest_version_shapes (net env) (memo a))
    as [[e H] | [H | (x & y & src & v & H)]];
    destruct (get_latest_version (net env) (memo a)) as [ran memo'];
    simpl in H; subst ran; try discriminate Hy.
  injection Hy as ->. cbn [trace deliver].
  destruct (show_version_info_outdated env (mkScreen self' fs' (dialogs (scr a)))
              latest_version Hgt) as (_ & _ & _ & Hshow).
  rewrite (Hshow Hsn). cbn [deliver]. repeat split. exact Hsn.
Qed.

(** Whenever the version handed to [show_version_info] is greater than the
    installed one, the label is set to the update message, also when writing
    the record fails afterwards, and the dialog is opened if and only if the
    attribute [_snoozed] is not set.  A check that finds a record younger
    than 21 days sets the attribute: it opens no dialog and still writes the
    update message into the label. *)
Theorem update_available_outcome :
  (forall (env : environment) (s : screen) (latest_version : Version),
     version_gt latest_version (_current_version (widget s)) = true ->
     label (widget (fst (show_version_info env s latest_version)))
       = outdated_msg (_current_version (widget s)) latest_version
           (if ON_BUNDLE env then URL_BUNDLE else URL_PACKAGE) /\
     dialogs (fst (show_version_info env s latest_version))
       = (if _snoozed (widget s) then dialogs s
          else dialogs s ++ [outdated_msg (_current_version (widget s)) latest_version
                               (if ON_BUNDLE env then URL_BUNDLE else URL_PACKAGE)]))
  /\
  (forall (env : environment) (a : app) (content : string) (old_date : date)
       (latest_version : Version),
     files (scr a) !! path_join (_base_folder (widget (scr a))) IGNORE_FILE
       = Some (File content) ->
     record_date content = Some old_date ->
     days_between (today env) old_date < 21 ->
     yields (fst (get_latest_version (net env) (memo a))) = [latest_version] ->
     version_gt latest_version (_current_version (widget (scr a))) = true ->
     snd (check env a) = None /\
     dialogs (scr (fst (check env a))) = dialogs (scr a) /\
     label (widget (scr (fst (check env a))))
       = outdated_msg (_current_version (widget (scr a))) latest_version
           (if ON_BUNDLE env then URL_BUNDLE else URL_PACKAGE)).
Proof.
  split.
  - intros env s latest_version Hgt.
    destruct (show_version_info_outdated env s latest_version Hgt) as (Hl & Hd & _).
    split; assumption.
  - intros env a content old_date latest_version Hfile Hdate Hage Hy Hgt.
    pose proof (_check_time_recent _ _ _ _ _ Hfile Hdate Hage) as Hct.
    destruct (check_snoozed env a _ _ _ latest_version Hct eq_refl Hy Hgt)
      as (Herr & Hd & Hl & _).
    repeat split; assumption.
Qed.

Lemma update_available_outcome_witness :
  dialogs (fst (show_version_info example_env
                  (mkScreen (mkUpdateChecker (mkVersion 0 [0; 4; 0]%N None None None None)
                               None PREFIX true "") fresh_files [])
                  (mkVersion 0 [0; 4; 5]%N None None None None))) = [] /\
  dialogs (fst (show_version_info example_env
                  (mkScreen (mkUpdateChecker (mkVersion 0 [0; 4; 0]%N None None None None)
                               None PREFIX false "") fresh_files [])
                  (mkVersion 0 [0; 4; 5]%N None None None None)))
  = [outdated_msg (mkVersion 0 [0; 4; 0]%N None None None None)
       (mkVersion 0 [0; 4; 5]%N None None None None) URL_PACKAGE].
Proof.
  split.
  - apply (proj1 update_available_outcome example_env
             (mkScreen (mkUpdateChecker (mkVersion 0 [0; 4; 0]%N None None None None)
                          None PREFIX true "") fresh_files [])
             (mkVersion 0 [0; 4; 5]%N None None None None)).
    reflexivity.
  - apply (proj1 update_available_outcome example_env
             (mkScreen (mkUpdateChecker (mkVersion 0 [0; 4; 0]%N None None None None)
                          None PREFIX false "") fresh_files [])
             (mkVersion 0 [0; 4; 5]%N None None None None)).
    reflexivity.
Defined.

(** C6 on the code.  A first check finds a record five days old and sets
    the attribute [_snoozed].  The record is then overwritten with a text
    that is no date.  In the next check [_check_time] answers [False], not
    snoozed, and deletes the record; the greater version 0.4.5 is fetched
    and the label is updated, but the dialog is not opened:
    [show_version_info] asks the attribute, which [_check_time] did not
    touch, not the answer of this check. *)
Theorem unsnoozed_check_opens_no_dialog :
  exists (self : UpdateChecker) (a1 a2 : app),
    __init__ "0.4.0" PREFIX = Ok self /\
    check example_env (start self snoozed_files) = (a1, None) /\
    _snoozed (widget (scr a1)) = true /\
    (exists self' fs',
       _check_time (widget (scr (scribble_record a1)))
         (files (scr (scribble_record a1))) (today example_env)
       = Ok (false, self', fs')) /\
    check example_env (scribble_record a1) = (a2, None) /\
    yields (fst (get_latest_version (net example_env) (memo (scribble_record a1))))
      = [mkVersion 0 [0; 4; 5]%N None None None None] /\
    version_gt (mkVersion 0 [0; 4; 5]%N None None None None)
      (_current_version self) = true /\
    label (widget (scr a2))
      = outdated_msg (_current_version self)
          (mkVersion 0 [0; 4; 5]%N None None None None) URL_PACKAGE /\
    dialogs (scr a2) = [] /\
    files (scr a2) !! path_join PREFIX IGNORE_FILE = None.
Proof.
  eexists _, _, _.
  split; [vm_compute; reflexivity|].
  split; [vm_compute; reflexivity|].
  split; [vm_compute; reflexivity|].
  split; [eexists _, _; vm_compute; reflexivity|].
  repeat split; vm_compute; reflexivity.
Qed.

(** ** A removed record *)

(** With the flag left set by an earlier check, a check without a record
    file opens no dialog although a greater version was fetched. *)
Lemma check_without_record_stale_flag (env : environment) (a : app)
    (latest_version : Version) :
  files (scr a) !! path_join (_base_folder (widget (scr a))) IGNORE_FILE = None ->
  _snoozed (widget (scr a)) = true ->
  yields (fst (get_latest_version (net env) (memo a))) = [latest_version] ->
  version_gt latest_version (_current_version (widget (scr a))) = true ->
  snd (check env a) = None /\
  dialogs (scr (fst (check env a))) = dialogs (scr a).
Proof.
  intros Hfile Hsn Hy Hgt.
  pose proof (_check_time_absent (widget (scr a)) (files (scr a)) (today env) Hfile)
    as Hct.
  destruct (check_snoozed env a _ _ _ latest_version Hct Hsn Hy Hgt) as (He & Hd & _).
  split; assumption.
Qed.

(** With the flag not set, the same check opens the dialog. *)
Lemma check_without_record_fresh_flag (env : environment) (a : app)
    (latest_version : Version) :
  files (scr a) !! path_join (_base_folder (widget (scr a))) IGNORE_FILE = None ->
  _snoozed (widget (scr a)) = false ->
  yields (fst (get_latest_version (net env) (memo a))) = [latest_version] ->
  version_gt latest_version (_current_version (widget (scr a))) = true ->
  dialogs (scr (fst (check env a)))
  = dialogs (scr a) ++ [outdated_msg (_current_version (widget (scr a))) latest_version
                          (if ON_BUNDLE env then URL_BUNDLE else URL_PACKAGE)].
Proof.
  intros Hfile Hsn Hy Hgt. unfold check.
  rewrite (_check_time_absent _ _ _ Hfile).
  destruct (get_latest_version_shapes (net env) (memo a))
    as [[e H] | [H | (x & y & src & v & H)]];
    destruct (get_latest_version (net env) (memo a)) as [ran memo'];
    simpl in H; subst ran; try discriminate Hy.
  injection Hy as ->. cbn [trace deliver].
  destruct (show_version_info_outdated env
              (mkScreen (widget (scr a)) (files (scr a)) (dialogs (scr a)))
              latest_version Hgt) as (_ & Hd & _).
  cbn [widget dialogs] in Hd. rewrite Hsn in Hd.
  destruct (show_version_info env _ latest_version) as [s' [e|]];
    cbn [deliver fst scr]; exact Hd.
Qed.

(** C9 on the code.  A first check finds a record five days old: the flag
    [_snoozed] is set and no dialog opens.  The record file is then removed
    from outside.  In the next check [_check_time] returns [False] and the
    greater version 0.4.5 is fetched again, but the flag is still set: the
    label is updated and no dialog opens. *)
Theorem removed_record_still_suppresses_dialog :
  exists (self : UpdateChecker) (a1 a2 : app),
    __init__ "0.4.0" PREFIX = Ok self /\
    check example_env (start self snoozed_files) = (a1, None) /\
    _snoozed (widget (scr a1)) = true /\
    files (scr (remove_record a1)) !! path_join PREFIX IGNORE_FILE = None /\
    _check_time (widget (scr (remove_record a1))) (files (scr (remove_record a1)))
      (today example_env)
      = Ok (false, widget (scr (remove_record a1)), files (scr (remove_record a1))) /\
    check example_env (remove_record a1) = (a2, None) /\
    yields (fst (get_latest_version (net example_env) (memo (remove_record a1))))
      = [mkVersion 0 [0; 4; 5]%N None None None None] /\
    label (widget (scr a2))
      = outdated_msg (_current_version self)
          (mkVersion 0 [0; 4; 5]%N None None None None) URL_PACKAGE /\
    dialogs (scr a2) = [].
Proof.
  eexists _, _, _.
  repeat split; vm_compute; reflexivity.
Qed.

(** * Further properties *)

(** ** The tags reader *)

Lemma py_get_named_item (name : option string) :
  py_get (named_item name) "name" JNull
  = Ok (match name with Some n => JStr n | None => JNull end).
Proof.
  unfold py_get, named_item. destruct name as [n|].
  - rewrite lookup_singleton_eq. reflexivity.
  - rewrite lookup_empty. reflexivity.
Qed.

Lemma github_tags_loop_named (names : list (option string)) :
  forall versions : list string,
    github_tags_loop (map named_item names) versions
    = Ok (versions ++ omap stored_tag names).
Proof.
  induction names as [|name names IH]; intros versions;
    cbn [map github_tags_loop omap].
  - rewrite app_nil_r. reflexivity.
  - rewrite py_get_named_item. cbn [rbind].
    destruct name as [s|]; cbn [truthy stored_tag list_omap].
    + destruct (String.eqb s "") eqn:E; cbn [negb].
      * apply IH.
      * rewrite IH, <- app_assoc. reflexivity.
    + apply IH.
Qed.

Lemma github_tags_loop_app (items1 items2 : list json) :
  forall versions : list string,
    github_tags_loop (items1 ++ items2) versions
    = rbind (github_tags_loop items1 versions) (github_tags_loop items2).
Proof.
  induction items1 as [|item items1 IH]; intros versions; [reflexivity|].
  change ((item :: items1) ++ items2) with (item :: (items1 ++ items2)).
  cbn [github_tags_loop].
  destruct (py_get item "name" JNull) as [version|e]; [|reflexivity].
  cbn [rbind]. destruct (truthy version); [|apply IH].
  destruct version; try reflexivity. apply IH.
Qed.

(** X1.  For a response that is a list of objects whose name, where there is
    one, is a string, [github_tags] returns the names in reverse order of the
    response, without the items that have no name or an empty one, and each
    without one leading "v". *)
Theorem github_tags_of_named_items (names : list (option string))
    (conda : result json) :
  github_tags_body (responses (Ok (JArr (map named_item names))) conda)
  = Ok (rev (omap stored_tag names)).
Proof.
  unfold github_tags_body, responses.
  change (String.eqb GITHUB_URL GITHUB_URL) with true. cbn [rbind py_iter].
  rewrite github_tags_loop_named. reflexivity.
Qed.

(** X2.  When the response lists, after well-formed items, an item that is
    not an object, or an object whose name is truthy but not a string,
    [github_tags] raises [AttributeError]; an uncached run of
    [get_latest_version] ends with that error, without a warning and without
    a value. *)
Theorem github_tags_malformed_item (names : list (option string))
    (bad : json) (rest : list json) (conda : result json) (c : caches) :
  (forall m, bad <> JObj m) \/
  (exists m v, bad = JObj m /\ m !! "name"%string = Some v /\
               truthy v = true /\ forall s, v <> JStr s) ->
  github_tags_cache c = None ->
  github_tags_body
    (responses (Ok (JArr (map named_item names ++ bad :: rest))) conda)
    = Raise AttributeError /\
  fst (get_latest_version
         (responses (Ok (JArr (map named_item names ++ bad :: rest))) conda) c)
    = mkRun [] (Some AttributeError).
Proof.
  intros Hbad Hcache.
  assert (Hbody : github_tags_body
                    (responses (Ok (JArr (map named_item names ++ bad :: rest))) conda)
                  = Raise AttributeError).
  { unfold github_tags_body, responses.
    change (String.eqb GITHUB_URL GITHUB_URL) with true. cbn [rbind py_iter].
    rewrite github_tags_loop_app, github_tags_loop_named. cbn [rbind github_tags_loop].
    destruct Hbad as [Hno | (m & v & -> & Hname & Htruthy & Hstr)].
    - destruct bad; try reflexivity. exfalso. apply (Hno m). reflexivity.
    - cbn [py_get]. rewrite Hname. cbn [from_option id rbind]. rewrite Htruthy.
      destruct v; try reflexivity. exfalso. apply (Hstr s). reflexivity. }
  split; [exact Hbody|].
  rewrite (get_latest_version_fetch_error _ c AttributeError); [reflexivity|].
  left. unfold github_tags. rewrite Hcache, Hbody. reflexivity.
Qed.

Lemma github_tags_malformed_item_witness :
  fst (get_latest_version
         (responses (Ok (JArr [tag_item "v0.4.5"; JStr "v0.4.4"]))
                    (Ok (JObj {[ "versions"%string := JArr [JStr "0.4.3"] ]})))
         empty_caches)
  = mkRun [] (Some AttributeError).
Proof.
  apply (github_tags_malformed_item [Some "v0.4.5"%string] (JStr "v0.4.4") []
           (Ok (JObj {[ "versions"%string := JArr [JStr "0.4.3"] ]})) empty_caches).
  - left. intros m. discriminate.
  - reflexivity.
Defined.

(** ** The memo tables *)

Lemma fetched_caches (net : network) (c c1 c2 : caches)
    (gh_tags : list string) (cf_versions : json) :
  github_tags net c = (Ok gh_tags, c1) ->
  conda_forge_releases net c1 = (Ok cf_versions, c2) ->
  c2 = mkCaches (Some gh_tags) (Some cf_versions).
Proof.
  unfold github_tags, conda_forge_releases, lru_cache. intros Hgh Hcf.
  destruct (github_tags_cache c) as [l|].
  - injection Hgh as <- <-. cbn [github_tags_cache conda_forge_releases_cache] in Hcf.
    destruct (conda_forge_releases_cache c) as [v|].
    + injection Hcf as <- <-. reflexivity.
    + destruct (conda_forge_releases_body net); [|discriminate Hcf].
      injection Hcf as <- <-. reflexivity.
  - destruct (github_tags_body net); [|discriminate Hgh].
    injection Hgh as <- <-. cbn [github_tags_cache conda_forge_releases_cache] in Hcf.
    destruct (conda_forge_releases_cache c) as [v|].
    + injection Hcf as <- <-. reflexivity.
    + destruct (conda_forge_releases_body net); [|discriminate Hcf].
      injection Hcf as <- <-. reflexivity.
Qed.

(** What a run does once both readers have returned depends on the two
    results only. *)
Lemma get_latest_version_of_results (net net' : network) (c c1 c2 c' c1' c2' : caches)
    (gh_tags gh_tags' : list string) (cf_versions cf_versions' : json) :
  github_tags net c = (Ok gh_tags, c1) ->
  conda_forge_releases net c1 = (Ok cf_versions, c2) ->
  github_tags net' c' = (Ok gh_tags', c1') ->
  conda_forge_releases net' c1' = (Ok cf_versions', c2') ->
  index_last cf_versions = index_last cf_versions' ->
  list_last gh_tags = list_last gh_tags' ->
  fst (get_latest_version net c) = fst (get_latest_version net' c').
Proof.
  intros Hgh Hcf Hgh' Hcf' Hx Hy. unfold get_latest_version.
  rewrite Hgh, Hcf, Hgh', Hcf'. cbn [rbind]. rewrite Hx, Hy.
  destruct (rbind (index_last cf_versions') (fun x => parse_value x))
    as [latest_version|]; [|reflexivity].
  destruct (rbind (list_last gh_tags') (fun y => parse y))
    as [latest_tag|]; [|reflexivity].
  destruct (version_gt latest_version latest_tag); reflexivity.
Qed.

(** X3.  Once both readers have returned, their results are kept for the
    life of the process: every later run, on whatever the network has become,
    does what the first run did and leaves the memo tables as they are. *)
Theorem results_are_memoized (net net' : network) (c c1 c2 : caches)
    (gh_tags : list string) (cf_versions : json) :
  github_tags net c = (Ok gh_tags, c1) ->
  conda_forge_releases net c1 = (Ok cf_versions, c2) ->
  get_latest_version net' c2 = (fst (get_latest_version net c), c2).
Proof.
  intros Hgh Hcf.
  pose proof (fetched_caches _ _ _ _ _ _ Hgh Hcf) as Hc2.
  assert (Hgh' : github_tags net' c2 = (Ok gh_tags, c2)) by (subst c2; reflexivity).
  assert (Hcf' : conda_forge_releases net' c2 = (Ok cf_versions, c2))
    by (subst c2; reflexivity).
  rewrite (get_latest_version_of_results net net' c c1 c2 c2 c2 c2
             gh_tags gh_tags cf_versions cf_versions Hgh Hcf Hgh' Hcf' eq_refl eq_refl).
  destruct (get_latest_version net' c2) as [ran c3] eqn:E. cbn [fst]. f_equal.
  unfold get_latest_version in E. rewrite Hgh', Hcf' in E. cbn [rbind] in E.
  destruct (rbind (index_last cf_versions) (fun x => parse_value x))
    as [latest_version|]; [|injection E as _ <-; reflexivity].
  destruct (rbind (list_last gh_tags) (fun y => parse y))
    as [latest_tag|]; [|injection E as _ <-; reflexivity].
  destruct (version_gt latest_version latest_tag); injection E as _ <-; reflexivity.
Qed.

Lemma results_are_memoized_witness :
  get_latest_version (responses (Raise URLError) (Raise URLError))
    (mkCaches (Some ["0.4.4"; "0.4.5"]%string) (Some (JArr [JStr "0.4.3"])))
  = (fst (get_latest_version (catalogs ["v0.4.5"; "v0.4.4"] ["0.4.3"])%string
            empty_caches),
     mkCaches (Some ["0.4.4"; "0.4.5"]%string) (Some (JArr [JStr "0.4.3"]))).
Proof.
  apply (results_are_memoized (catalogs ["v0.4.5"; "v0.4.4"] ["0.4.3"])%string
           (responses (Raise URLError) (Raise URLError)) empty_caches
           (mkCaches (Some ["0.4.4"; "0.4.5"]%string) None)
           (mkCaches (Some ["0.4.4"; "0.4.5"]%string) (Some (JArr [JStr "0.4.3"])))
           ["0.4.4"; "0.4.5"]%string (JArr [JStr "0.4.3"])); reflexivity.
Defined.

(** X4.  A failure is not memoized, and it does not keep the other reader
    from running: when the tags reader raises while the conda-forge reader
    returns, the run leaves the tags table empty and the conda-forge table
    filled. *)
Theorem failed_fetch_is_not_memoized (net : network) (c : caches) (e : exn)
    (cf_versions : json) :
  github_tags_cache c = None ->
  conda_forge_releases_cache c = None ->
  github_tags_body net = Raise e ->
  conda_forge_releases_body net = Ok cf_versions ->
  snd (get_latest_version net c) = mkCaches None (Some cf_versions) /\
  raised (fst (get_latest_version net c))
    = (if is_URLError e then None else Some e).
Proof.
  intros Hc1 Hc2 Hgh Hcf.
  unfold get_latest_version, github_tags, conda_forge_releases, lru_cache.
  rewrite Hc1, Hgh. cbn [github_tags_cache conda_forge_releases_cache].
  rewrite Hc2, Hcf. cbn [rbind].
  destruct (is_URLError e); split; reflexivity.
Qed.

Lemma failed_fetch_is_not_memoized_witness :
  snd (get_latest_version
         (responses (Raise HTTPError)
                    (Ok (JObj {[ "versions"%string := JArr [JStr "0.4.3"] ]})))
         empty_caches)
  = mkCaches None (Some (JArr [JStr "0.4.3"])).
Proof.
  apply (failed_fetch_is_not_memoized
           (responses (Raise HTTPError)
                      (Ok (JObj {[ "versions"%string := JArr [JStr "0.4.3"] ]})))
           empty_caches HTTPError (JArr [JStr "0.4.3"])); reflexivity.
Defined.

(** ** The shape of a run *)

(** X5.  Whatever the network and the memo tables, a run yields at most one
    value and shows at most one warning, never both; a run that raises has
    done neither, and a value is yielded only after one comparison. *)
Theorem run_is_single_shot (net : network) (c : caches) :
  (length (yields (fst (get_latest_version net c))) <= 1)%nat /\
  (length (warnings_of (fst (get_latest_version net c))) <= 1)%nat /\
  (yields (fst (get_latest_version net c)) <> [] ->
   warnings_of (fst (get_latest_version net c)) = [] /\
   length (comparisons (fst (get_latest_version net c))) = 1%nat /\
   raised (fst (get_latest_version net c)) = None) /\
  (raised (fst (get_latest_version net c)) <> None ->
   trace (fst (get_latest_version net c)) = []).
Proof.
  destruct (get_latest_version_shapes net c)
    as [[e ->] | [-> | (a & b & src & v & ->)]]; cbn.
  - repeat split; try lia; congruence.
  - repeat split; try lia; congruence.
  - repeat split; try lia; congruence.
Qed.

(** ** Which entries are read *)

Lemma tag_items_named (names : list string) :
  map tag_item names = map named_item (map Some names).
Proof. rewrite map_map. reflexivity. Qed.

Lemma github_tags_catalogs (t : string) (tags versions : list string) (c : caches) :
  t <> ""%string ->
  github_tags_cache c = None ->
  exists l,
    github_tags (catalogs (t :: tags) versions) c
    = (Ok (l ++ [if startswith_v t then drop_first t else t]),
       mkCaches (Some (l ++ [if startswith_v t then drop_first t else t]))
                (conda_forge_releases_cache c)).
Proof.
  intros Ht Hc. exists (rev (omap stored_tag (map Some tags))).
  unfold github_tags, catalogs. rewrite Hc, tag_items_named.
  unfold github_tags_body, responses.
  change (String.eqb GITHUB_URL GITHUB_URL) with true. cbn [rbind py_iter].
  rewrite github_tags_loop_named. cbn [rbind lru_cache]; rewrite app_nil_l.
  cbn [map omap list_omap stored_tag].
  destruct (String.eqb t "") eqn:E; [apply String.eqb_eq in E; congruence|].
  reflexivity.
Qed.

Lemma conda_catalogs (tags versions : list string) (c : caches) :
  conda_forge_releases_cache c = None ->
  conda_forge_releases (catalogs tags versions) c
  = (Ok (JArr (map JStr versions)),
     mkCaches (github_tags_cache c) (Some (JArr (map JStr versions)))).
Proof.
  intros Hc. unfold conda_forge_releases, catalogs. rewrite Hc.
  unfold conda_forge_releases_body, responses.
  change (String.eqb CONDA_URL GITHUB_URL) with false.
  change (String.eqb CONDA_URL CONDA_URL) with true.
  cbn [rbind py_get]. rewrite lookup_singleton_eq. reflexivity.
Qed.

Lemma index_last_snoc (versions : list string) (v : string) :
  index_last (JArr (map JStr (versions ++ [v]))) = Ok (JStr v).
Proof. unfold index_last. rewrite map_app. cbn [map]. rewrite last_snoc. reflexivity. Qed.

Lemma list_last_snoc (l : list string) (x : string) : list_last (l ++ [x]) = Ok x.
Proof. unfold list_last. rewrite last_snoc. reflexivity. Qed.

(** X6.  Only the first tag of the response and the last conda-forge version
    are parsed and compared: the tags behind the first and the versions
    before the last have no influence on the run, whatever they are. *)
Theorem only_newest_entries_are_read (t v : string) (tags versions : list string) :
  t <> ""%string ->
  fst (get_latest_version (catalogs (t :: tags) (versions ++ [v])) empty_caches)
  = fst (get_latest_version (catalogs [t] [v]) empty_caches).
Proof.
  intros Ht.
  destruct (github_tags_catalogs t tags (versions ++ [v]) empty_caches Ht eq_refl)
    as (l & Hgh).
  destruct (github_tags_catalogs t [] [v] empty_caches Ht eq_refl) as (l' & Hgh').
  eapply get_latest_version_of_results.
  - exact Hgh.
  - apply conda_catalogs. reflexivity.
  - exact Hgh'.
  - apply conda_catalogs. reflexivity.
  - rewrite index_last_snoc. apply (index_last_snoc [] v).
  - rewrite !list_last_snoc. reflexivity.
Qed.

Lemma only_newest_entries_are_read_witness :
  fst (get_latest_version (catalogs ["v0.4.5"; "v0.9.0"] ["0.8.0"; "0.4.3"])%string
         empty_caches)
  = fst (get_latest_version (catalogs ["v0.4.5"] ["0.4.3"])%string empty_caches).
Proof.
  apply (only_newest_entries_are_read "v0.4.5" "0.4.3" ["v0.9.0"] ["0.8.0"])%string.
  discriminate.
Defined.

(** ** The conda-forge reader *)

(** X7.  When the document of the package index is an object without a
    ["versions"] entry, [conda_forge_releases] returns the empty list, and
    an uncached run in which the tags reader returns ends with the
    [IndexError] of [cf_versions[-1]]. *)
Theorem missing_versions_key (github : result json) (m : gmap string json)
    (c : caches) (gh_tags : list string) :
  m !! "versions"%string = None ->
  conda_forge_releases_cache c = None ->
  fst (github_tags (responses github (Ok (JObj m))) c) = Ok gh_tags ->
  conda_forge_releases_body (responses github (Ok (JObj m))) = Ok (JArr []) /\
  fst (get_latest_version (responses github (Ok (JObj m))) c)
    = mkRun [] (Some IndexError).
Proof.
  intros Hkey Hcache Hgh.
  assert (Hbody : conda_forge_releases_body (responses github (Ok (JObj m)))
                  = Ok (JArr [])).
  { unfold conda_forge_releases_body, responses.
    change (String.eqb CONDA_URL GITHUB_URL) with false.
    change (String.eqb CONDA_URL CONDA_URL) with true.
    cbn [rbind py_get]. rewrite Hkey. reflexivity. }
  split; [exact Hbody|].
  unfold get_latest_version.
  destruct (github_tags (responses github (Ok (JObj m))) c) as [tags c1] eqn:E.
  cbn [fst] in Hgh. subst tags.
  assert (Hc1 : conda_forge_releases_cache c1 = conda_forge_releases_cache c).
  { unfold github_tags in E.
    destruct (lru_cache _ (github_tags_cache c)). injection E as _ <-. reflexivity. }
  unfold conda_forge_releases, lru_cache. rewrite Hc1, Hcache, Hbody. reflexivity.
Qed.

Lemma missing_versions_key_witness :
  fst (get_latest_version
         (responses (Ok (JArr [tag_item "v0.4.5"]))
                    (Ok (JObj {[ "name"%string := JStr "napari" ]})))
         empty_caches)
  = mkRun [] (Some IndexError).
Proof.
  apply (missing_versions_key (Ok (JArr [tag_item "v0.4.5"]))
           {[ "name"%string := JStr "napari" ]} empty_caches ["0.4.5"%string]);
    [vm_compute; reflexivity | reflexivity | reflexivity].
Defined.

(** ** The snooze record on every check *)

(** [_check_time] writes no attribute but [_snoozed]. *)
Lemma _check_time_attributes (self self' : UpdateChecker)
    (fs fs' : gmap (list string) node) (now : date) (b : bool) :
  _check_time self fs now = Ok (b, self', fs') ->
  label self' = label self /\
  _base_folder self' = _base_folder self /\
  _current_version self' = _current_version self.
Proof.
  unfold _check_time.
  destruct (path_exists fs _); [|intros [= _ <- _]; repeat split].
  destruct (open_read fs _) as [content|e]; [|discriminate]. cbn [rbind].
  destruct (record_date content) as [old_date|].
  - destruct (days_between now old_date <? IGNORE_DAYS).
    + intros [= _ <- _]. repeat split.
    + destruct (os_remove fs _); [|discriminate]. intros [= _ <- _]. repeat split.
  - destruct (os_remove fs _); [|discriminate]. intros [= _ <- _]. repeat split.
Qed.



Lemma length_list_ascii_of_string (s : string) :
  length (list_ascii_of_string s) = String.length s.
Proof. induction s as [|c s IH]; [reflexivity|]. simpl. rewrite IH. reflexivity. Qed.

Lemma fromisoformat_long (text : string) :
  (10 < String.length text)%nat -> fromisoformat text = None.
Proof.
  intros H. unfold fromisoformat. rewrite length_list_ascii_of_string.
  destruct (Nat.eqb_spec (String.length text) 7); [lia|].
  destruct (Nat.eqb_spec (String.length text) 8); [lia|].
  destruct (Nat.eqb_spec (String.length text) 10); [lia|]. reflexivity.
Qed.

(** X9.  A record whose text is longer than the ten characters of a date,
    such as a date followed by a line break, is no date: [_check_time]
    returns [False] and deletes it. *)
Theorem long_record_is_dropped (self : UpdateChecker) (fs : gmap (list string) node)
    (now : date) (content : string) :
  fs !! path_join (_base_folder self) IGNORE_FILE = Some (File content) ->
  (forall text, read content = Ok text -> (10 < String.length text)%nat) ->
  record_date content = None /\
  _check_time self fs now
  = Ok (false, self, delete (path_join (_base_folder self) IGNORE_FILE) fs).
Proof.
  intros Hp Hlen.
  assert (Hd : record_date content = None).
  { unfold record_date. destruct (read content) as [text|e]; [|reflexivity].
    apply fromisoformat_long, Hlen. reflexivity. }
  split; [exact Hd|]. apply (_check_time_corrupt _ _ _ _ Hp Hd).
Qed.

Lemma long_record_is_dropped_witness :
  _check_time (mkUpdateChecker (mkVersion 0 [0; 4; 0]%N None None None None)
                 None PREFIX false "")
    (<[ path_join PREFIX IGNORE_FILE
        := File ("2024-02-25" +:+ String (ascii_of_nat 13)
                                    (String (ascii_of_nat 10) EmptyString)) ]>
       fresh_files)
    (mkDate 2024 3 1)
  = Ok (false,
        mkUpdateChecker (mkVersion 0 [0; 4; 0]%N None None None None)
          None PREFIX false "",
        delete (path_join PREFIX IGNORE_FILE)
          (<[ path_join PREFIX IGNORE_FILE
              := File ("2024-02-25" +:+ String (ascii_of_nat 13)
                                          (String (ascii_of_nat 10) EmptyString)) ]>
             fresh_files)).
Proof.
  apply (long_record_is_dropped
           (mkUpdateChecker (mkVersion 0 [0; 4; 0]%N None None None None)
              None PREFIX false "")
           (<[ path_join PREFIX IGNORE_FILE
               := File ("2024-02-25" +:+ String (ascii_of_nat 13)
                                           (String (ascii_of_nat 10) EmptyString)) ]>
              fresh_files)
           (mkDate 2024 3 1)
           ("2024-02-25" +:+ String (ascii_of_nat 13)
                               (String (ascii_of_nat 10) EmptyString))).
  - vm_compute. reflexivity.
  - intros text Hread. vm_compute in Hread. injection Hread as <-.
    vm_compute. lia.
Defined.

(** X10.  When a directory sits at the record path, [_check_time] raises the
    error of [open], which is no [ValueError] and is not suppressed; [check]
    ends there: nothing is fetched, nothing is shown, nothing is changed. *)
Theorem record_path_is_directory (env : environment) (a : app) :
  files (scr a) !! path_join (_base_folder (widget (scr a))) IGNORE_FILE = Some Dir ->
  _check_time (widget (scr a)) (files (scr a)) (today env) = Raise IsADirectoryError /\
  is_ValueError IsADirectoryError = false /\
  check env a = (a, Some IsADirectoryError).
Proof.
  intros Hp.
  assert (Hct : _check_time (widget (scr a)) (files (scr a)) (today env)
                = Raise IsADirectoryError).
  { unfold _check_time, path_exists, open_read. rewrite lookup_node_join, Hp.
    reflexivity. }
  split; [exact Hct|]. split; [reflexivity|].
  unfold check. rewrite Hct. reflexivity.
Qed.

Lemma record_path_is_directory_witness :
  check example_env
    (start (mkUpdateChecker (mkVersion 0 [0; 4; 0]%N None None None None)
              None PREFIX false "")
       (<[ path_join PREFIX IGNORE_FILE := Dir ]> fresh_files))
  = (start (mkUpdateChecker (mkVersion 0 [0; 4; 0]%N None None None None)
              None PREFIX false "")
       (<[ path_join PREFIX IGNORE_FILE := Dir ]> fresh_files),
     Some IsADirectoryError).
Proof.
  apply (record_path_is_directory example_env
           (start (mkUpdateChecker (mkVersion 0 [0; 4; 0]%N None None None None)
                     None PREFIX false "")
              (<[ path_join PREFIX IGNORE_FILE := Dir ]> fresh_files))).
  vm_compute. reflexivity.
Defined.

(** ** What a check shows *)

Lemma deliver_single (env : environment) (a b : Version) (src : catalog)
    (v : Version) (s : screen) (ws : list string) :
  deliver env [Compare a b; Yield src v] s ws
  = (fst (show_version_info env s v), ws, snd (show_version_info env s v)).
Proof.
  cbn [deliver]. destruct (show_version_info env s v) as [s' [e|]]; reflexivity.
Qed.

(** A check in which the run yields a value hands it to
    [show_version_info]. *)
Lemma check_yield (env : environment) (a : app) (b : bool) (self' : UpdateChecker)
    (fs' : gmap (list string) node) (v : Version) :
  _check_time (widget (scr a)) (files (scr a)) (today env) = Ok (b, self', fs') ->
  yields (fst (get_latest_version (net env) (memo a))) = [v] ->
  check env a
  = (mkApp (fst (show_version_info env (mkScreen self' fs' (dialogs (scr a))) v))
       (snd (get_latest_version (net env) (memo a))) (warnings a) None,
     snd (show_version_info env (mkScreen self' fs' (dialogs (scr a))) v)).
Proof.
  intros Hct Hy. unfold check. rewrite Hct.
  destruct (get_latest_version_shapes (net env) (memo a))
    as [[e H] | [H | (x & y & src & w & H)]];
    destruct (get_latest_version (net env) (memo a)) as [ran memo'];
    cbn [fst snd] in *; subst ran; try discriminate Hy.
  injection Hy as ->. cbn [trace raised]. rewrite deliver_single. reflexivity.
Qed.

(** X11.  When both readers return, the last entry of each list parses and
    neither version is greater than the installed one, a check writes the
    up-to-date message into the label, opens no dialog and writes no file,
    whatever the snooze flag and whatever button the user would press. *)
Theorem up_to_date_check (env : environment) (a : app) (b : bool)
    (self' : UpdateChecker) (fs' : gmap (list string) node) (c1 c2 : caches)
    (gh_tags : list string) (cf_versions x : json) (y : string)
    (latest_version latest_tag : Version) :
  _check_time (widget (scr a)) (files (scr a)) (today env) = Ok (b, self', fs') ->
  github_tags (net env) (memo a) = (Ok gh_tags, c1) ->
  conda_forge_releases (net env) c1 = (Ok cf_versions, c2) ->
  index_last cf_versions = Ok x -> parse_value x = Ok latest_version ->
  list_last gh_tags = Ok y -> parse y = Ok latest_tag ->
  version_gt latest_version (_current_version (widget (scr a))) = false ->
  version_gt latest_tag (_current_version (widget (scr a))) = false ->
  check env a
  = (mkApp (mkScreen (setText self' (latest_msg (_current_version (widget (scr a)))))
              fs' (dialogs (scr a)))
       c2 (warnings a) None, None).
Proof.
  intros Hct Hgh Hcf Hx Hv Hy Ht Hle1 Hle2.
  pose proof (get_latest_version_ok _ _ _ _ _ _ _ _ _ _ Hgh Hcf Hx Hv Hy Ht) as Hrun.
  destruct (_check_time_attributes _ _ _ _ _ _ Hct) as (_ & _ & Hcur).
  set (v := if version_gt latest_version latest_tag then latest_version else latest_tag).
  assert (Hyv : yields (fst (get_latest_version (net env) (memo a))) = [v]).
  { rewrite Hrun. subst v. destruct (version_gt latest_version latest_tag); reflexivity. }
  assert (Hle : version_gt v (_current_version self') = false).
  { rewrite Hcur. subst v. destruct (version_gt latest_version latest_tag); assumption. }
  rewrite (check_yield env a b self' fs' v Hct Hyv), Hrun.
  unfold show_version_info. cbn [widget]. rewrite Hle, Hcur. reflexivity.
Qed.

Lemma up_to_date_check_witness :
  exists (self : UpdateChecker) (a : app),
    __init__ "0.5.0" PREFIX = Ok self /\
    check example_env (start self snoozed_files) = (a, None) /\
    label (widget (scr a)) = latest_msg (_current_version self) /\
    dialogs (scr a) = [].
Proof.
  eexists (mkUpdateChecker (mkVersion 0 [0; 5; 0]%N None None None None)
             None PREFIX false "Checking for updates...<br>"), _.
  split; [reflexivity|].
  rewrite (up_to_date_check example_env _ true
             (mkUpdateChecker (mkVersion 0 [0; 5; 0]%N None None None None)
                None PREFIX true "Checking for updates...<br>")
             snoozed_files
             (mkCaches (Some ["0.4.3"; "0.4.4"; "0.4.5"]%string) None)
             (mkCaches (Some ["0.4.3"; "0.4.4"; "0.4.5"]%string)
                (Some (JArr [JStr "0.4.2"; JStr "0.4.3"])))
             ["0.4.3"; "0.4.4"; "0.4.5"]%string (JArr [JStr "0.4.2"; JStr "0.4.3"])
             (JStr "0.4.3") "0.4.5"%string
             (mkVersion 0 [0; 4; 3]%N None None None None)
             (mkVersion 0 [0; 4; 5]%N None None None None));
    try (vm_compute; reflexivity).
  repeat split.
Defined.

(** X12.  [show_version_info] writes the record only from a dialog that is
    answered with Ignore: with the answer OK, with the snooze flag set, or
    with a version that is not greater, it raises nothing and leaves every
    file as it is.  In no case does it change the snooze flag, the
    installation path or the installed version. *)
Theorem show_version_info_writes_only_on_ignore (env : environment) (s : screen)
    (latest_version : Version) :
  (exec_ env = ButtonOk \/ _snoozed (widget s) = true \/
   version_gt latest_version (_current_version (widget s)) = false ->
   files (fst (show_version_info env s latest_version)) = files s /\
   snd (show_version_info env s latest_version) = None) /\
  _snoozed (widget (fst (show_version_info env s latest_version)))
    = _snoozed (widget s) /\
  _base_folder (widget (fst (show_version_info env s latest_version)))
    = _base_folder (widget s) /\
  _current_version (widget (fst (show_version_info env s latest_version)))
    = _current_version (widget s).
Proof.
  unfold show_version_info.
  destruct (version_gt latest_version (_current_version (widget s))) eqn:Hgt;
    [cbn [setText _snoozed _base_folder];
     destruct (_snoozed (widget s)) eqn:Hsn; cbn [negb];
     [| destruct (exec_ env) eqn:Hbtn;
        [| destruct (makedirs (files s) (_base_folder (widget s))) as [fs1|e];
           [match goal with
            | |- context [open_write ?f ?q ?t] => destruct (open_write f q t)
            end |]]] |];
    (split;
     [intros H;
      first [split; reflexivity | destruct H as [H | [H | H]]; discriminate H]
     |repeat split; simpl; first [assumption | reflexivity]]).
Qed.

Lemma show_version_info_writes_only_on_ignore_witness :
  files (fst (show_version_info example_env
                (mkScreen (mkUpdateChecker (mkVersion 0 [0; 4; 0]%N None None None None)
                             None PREFIX false "") fresh_files [])
                (mkVersion 0 [0; 4; 5]%N None None None None)))
  = fresh_files.
Proof.
  apply (proj1 (show_version_info_writes_only_on_ignore example_env
                  (mkScreen (mkUpdateChecker
                               (mkVersion 0 [0; 4; 0]%N None None None None)
                               None PREFIX false "") fresh_files [])
                  (mkVersion 0 [0; 4; 5]%N None None None None))).
  left. reflexivity.
Defined.

(** X13.  Writing the snooze record touches nothing else: after the Ignore
    branch of [show_version_info] every file and directory that was there,
    other than the record itself, is still there with the same content, and
    no path appears other than the record and the directories of the
    installation path. *)
Theorem snooze_touches_only_the_record (env : environment) (s : screen)
    (latest_version : Version) :
  version_gt latest_version (_current_version (widget s)) = true ->
  _snoozed (widget s) = false ->
  exec_ env = ButtonIgnore ->
  (forall q k c, _base_folder (widget s) = q ++ k -> q <> [] ->
                 files s !! q <> Some (File c)) ->
  files s !! path_join (_base_folder (widget s)) IGNORE_FILE <> Some Dir ->
  forall p : path,
    p <> path_join (_base_folder (widget s)) IGNORE_FILE ->
    (forall n, files s !! p = Some n ->
               files (fst (show_version_info env s latest_version)) !! p = Some n) /\
    (~ p `prefix_of` _base_folder (widget s) ->
     files (fst (show_version_info env s latest_version)) !! p = files s !! p).
Proof.
  intros Hgt Hsn Hbtn Hfree Hrec p Hp.
  destruct (snooze_writes_record env s latest_version Hgt Hsn Hbtn Hfree Hrec)
    as (s' & fs1 & Hshow & Hmk & Hfiles & _).
  destruct (makedirs_from_spec (_base_folder (widget s)) (files s) [])
    as (fs1' & Hmk' & Hdirs & Hframe).
  { intros q k c E Hq. simpl. apply (Hfree q k c E Hq). }
  unfold makedirs in Hmk. rewrite Hmk in Hmk'. injection Hmk' as <-.
  rewrite Hshow. cbn [fst]. rewrite Hfiles, lookup_insert_ne by congruence.
  assert (Hout : ~ p `prefix_of` _base_folder (widget s) \/ p = [] ->
                 fs1 !! p = files s !! p).
  { intros Hcase. apply Hframe. intros q k E Hq. simpl. intros ->.
    destruct Hcase as [Hno | ->]; [|congruence].
    apply Hno. exists k. exact E. }
  split.
  - intros n Hn.
    destruct (decide (p `prefix_of` _base_folder (widget s))) as [[k E] | Hno].
    + destruct p as [|x p']; [rewrite Hout by (right; reflexivity); exact Hn|].
      specialize (Hdirs (x :: p') k E ltac:(discriminate)).
      destruct n as [c|]; [|exact Hdirs].
      exfalso. apply (Hfree (x :: p') k c E); [discriminate | exact Hn].
    + rewrite Hout by (left; exact Hno). exact Hn.
  - intros Hno. apply Hout. left. exact Hno.
Qed.

Lemma snooze_touches_only_the_record_witness :
  files (fst (show_version_info ignore_env
                (mkScreen (mkUpdateChecker (mkVersion 0 [0; 4; 0]%N None None None None)
                             None PREFIX false "") fresh_files [])
                (mkVersion 0 [0; 4; 5]%N None None None None)))
    !! ["opt"; "napari"]%string = Some Dir.
Proof.
  refine (proj1 (snooze_touches_only_the_record ignore_env
                   (mkScreen (mkUpdateChecker
                                (mkVersion 0 [0; 4; 0]%N None None None None)
                                None PREFIX false "") fresh_files [])
                   (mkVersion 0 [0; 4; 5]%N None None None None)
                   _ _ _ _ _ ["opt"; "napari"]%string _) Dir _).
  - reflexivity.
  - reflexivity.
  - reflexivity.
  - intros q k c _ _. cbn [files]. unfold fresh_files.
    rewrite lookup_insert. case_decide; [discriminate|].
    rewrite lookup_singleton. case_decide; discriminate.
  - vm_compute. discriminate.
  - discriminate.
  - vm_compute. reflexivity.
Defined.

(** X14.  After the user has answered Ignore, a later check on the same
    widget less than 21 days after that day opens no further dialog, even
    though [show_version_info] itself left the snooze flag unset: the next
    [_check_time] reads the record and sets it. *)
Theorem ignore_silences_next_check (env env' : environment) (s : screen)
    (latest_version v' : Version) (a' : app) :
  version_gt latest_version (_current_version (widget s)) = true ->
  _snoozed (widget s) = false ->
  exec_ env = ButtonIgnore ->
  valid (today env) = true ->
  (forall q k c, _base_folder (widget s) = q ++ k -> q <> [] ->
                 files s !! q <> Some (File c)) ->
  files s !! path_join (_base_folder (widget s)) IGNORE_FILE <> Some Dir ->
  scr a' = fst (show_version_info env s latest_version) ->
  days_between (today env') (today env) < 21 ->
  yields (fst (get_latest_version (net env') (memo a'))) = [v'] ->
  version_gt v' (_current_version (widget s)) = true ->
  _snoozed (widget (scr a')) = false /\
  snd (check env' a') = None /\
  dialogs (scr (fst (check env' a'))) = dialogs (scr a') /\
  files (scr (fst (check env' a'))) = files (scr a') /\
  _snoozed (widget (scr (fst (check env' a')))) = true.
Proof.
  intros Hgt Hsn Hbtn Hvalid Hfree Hrec Hscr Hage Hy Hgt'.
  destruct (snooze_writes_record env s latest_version Hgt Hsn Hbtn Hfree Hrec)
    as (s' & fs1 & Hshow & _ & Hfiles & _ & Hbase & Hsn').
  rewrite Hshow in Hscr. cbn [fst] in Hscr.
  assert (Hfile : files (scr a') !! path_join (_base_folder (widget (scr a'))) IGNORE_FILE
                  = Some (File (isoformat (today env)))).
  { rewrite Hscr, Hbase, Hfiles. apply lookup_insert_eq. }
  pose proof (record_date_isoformat (today env) Hvalid) as Hdate.
  pose proof (_check_time_recent _ _ (today env') _ _ Hfile Hdate Hage) as Hct.
  assert (Hcur : _current_version (widget (scr a')) = _current_version (widget s)).
  { rewrite Hscr.
    unfold show_version_info in Hshow. rewrite Hgt in Hshow.
    cbn [setText _snoozed _base_folder] in Hshow. rewrite Hsn, Hbtn in Hshow.
    cbn [negb] in Hshow.
    destruct (makedirs (files s) (_base_folder (widget s))); [|discriminate Hshow].
    match type of Hshow with
    | context [open_write ?f ?q ?t] => destruct (open_write f q t)
    end; [|discriminate Hshow].
    injection Hshow as <-. reflexivity. }
  destruct (check_snoozed env' a' _ _ _ v' Hct eq_refl Hy) as (He & Hd & _ & Hf & Hs).
  { cbn [set_snoozed _current_version]. rewrite Hcur. exact Hgt'. }
  split; [rewrite Hscr; exact Hsn'|]. repeat split; assumption.
Qed.

Lemma ignore_silences_next_check_witness :
  dialogs (scr (fst (check example_env
                       (mkApp (fst (show_version_info ignore_env
                                 (mkScreen (mkUpdateChecker
                                              (mkVersion 0 [0; 4; 0]%N None None None None)
                                              None PREFIX false "") ∅ [])
                                 (mkVersion 0 [0; 4; 5]%N None None None None)))
                          empty_caches [] None))))
  = dialogs (fst (show_version_info ignore_env
                    (mkScreen (mkUpdateChecker
                                 (mkVersion 0 [0; 4; 0]%N None None None None)
                                 None PREFIX false "") ∅ [])
                    (mkVersion 0 [0; 4; 5]%N None None None None))).
Proof.
  refine (proj1 (proj2 (proj2 (ignore_silences_next_check ignore_env example_env
            (mkScreen (mkUpdateChecker (mkVersion 0 [0; 4; 0]%N None None None None)
                         None PREFIX false "") ∅ [])
            (mkVersion 0 [0; 4; 5]%N None None None None)
            (mkVersion 0 [0; 4; 5]%N None None None None)
            (mkApp _ empty_caches [] None)
            _ _ _ _ _ _ _ _ _ _)))); try reflexivity.
  - intros q k c _ _. cbn [files]. rewrite lookup_empty. discriminate.
  - cbn [files]. rewrite lookup_empty. discriminate.
Defined.

(** X15.  A record that is 21 days old or older ends the snooze whatever the
    flag was before: the check deletes the record, clears the flag and, for
    a greater version, opens the dialog; answered with OK, no new record is
    written. *)
Theorem expired_record_reopens_dialog (env : environment) (a : app)
    (content : string) (old_date : date) (v : Version) :
  files (scr a) !! path_join (_base_folder (widget (scr a))) IGNORE_FILE
    = Some (File content) ->
  record_date content = Some old_date ->
  21 <= days_between (today env) old_date ->
  yields (fst (get_latest_version (net env) (memo a))) = [v] ->
  version_gt v (_current_version (widget (scr a))) = true ->
  exec_ env = ButtonOk ->
  snd (check env a) = None /\
  dialogs (scr (fst (check env a)))
    = dialogs (scr a) ++ [outdated_msg (_current_version (widget (scr a))) v
                            (if ON_BUNDLE env then URL_BUNDLE else URL_PACKAGE)] /\
  files (scr (fst (check env a)))
    = delete (path_join (_base_folder (widget (scr a))) IGNORE_FILE) (files (scr a)) /\
  _snoozed (widget (scr (fst (check env a)))) = false.
Proof.
  intros Hfile Hdate Hage Hy Hgt Hbtn.
  pose proof (_check_time_stale _ _ (today env) _ _ Hfile Hdate Hage) as Hct.
  rewrite (check_yield env a _ _ _ v Hct Hy). cbn [fst snd scr].
  unfold show_version_info. cbn [widget set_snoozed _current_version].
  rewrite Hgt. cbn [setText _snoozed negb]. rewrite Hbtn.
  repeat split.
Qed.

Lemma expired_record_reopens_dialog_witness :
  dialogs (scr (fst (check example_env
                       (start (mkUpdateChecker
                                 (mkVersion 0 [0; 4; 0]%N None None None None)
                                 None PREFIX true "")
                          (<[ path_join PREFIX IGNORE_FILE := File "2024-02-09" ]>
                             fresh_files)))))
  = [] ++ [outdated_msg (mkVersion 0 [0; 4; 0]%N None None None None)
             (mkVersion 0 [0; 4; 5]%N None None None None) URL_PACKAGE].
Proof.
  refine (proj1 (proj2 (expired_record_reopens_dialog example_env
            (start (mkUpdateChecker (mkVersion 0 [0; 4; 0]%N None None None None)
                      None PREFIX true "")
               (<[ path_join PREFIX IGNORE_FILE := File "2024-02-09" ]> fresh_files))
            "2024-02-09" (mkDate 2024 2 9)
            (mkVersion 0 [0; 4; 5]%N None None None None) _ _ _ _ _ _)));
    first [reflexivity | vm_compute; reflexivity | vm_compute; discriminate].
Defined.

(** X16.  When the fetch fails at the network layer, the check changes
    nothing on the screen beyond what [_check_time] did: the label keeps its
    text, no dialog opens, one warning is added to the notifications, and no
    worker error is recorded. *)
Theorem network_failure_check (env : environment) (a : app) (b : bool)
    (self' : UpdateChecker) (fs' : gmap (list string) node) (e : exn) :
  _check_time (widget (scr a)) (files (scr a)) (today env) = Ok (b, self', fs') ->
  is_URLError e = true ->
  (fst (github_tags (net env) (memo a)) = Raise e \/
   ((exists gh_tags, fst (github_tags (net env) (memo a)) = Ok gh_tags) /\
    fst (conda_forge_releases (net env) (memo a)) = Raise e)) ->
  check env a
  = (mkApp (mkScreen self' fs' (dialogs (scr a)))
       (snd (get_latest_version (net env) (memo a)))
       (warnings a ++ [NETWORK_WARNING]) None, None) /\
  label self' = label (widget (scr a)).
Proof.
  intros Hct He Hfetch.
  pose proof (get_latest_version_fetch_error (net env) (memo a) e Hfetch) as Hrun.
  rewrite He in Hrun. split.
  - unfold check. rewrite Hct.
    destruct (get_latest_version (net env) (memo a)) as [ran memo'].
    cbn [fst snd] in *. subst ran. reflexivity.
  - apply (_check_time_attributes _ _ _ _ _ _ Hct).
Qed.

Lemma network_failure_check_witness :
  warnings (fst (check (mkEnvironment (mkDate 2024 3 1) false
                          (responses (Raise URLError) (Raise URLError)) ButtonOk)
                   (start (mkUpdateChecker
                             (mkVersion 0 [0; 4; 0]%N None None None None)
                             None PREFIX false "Checking for updates...<br>")
                      fresh_files)))
  = [NETWORK_WARNING].
Proof.
  destruct (network_failure_check
              (mkEnvironment (mkDate 2024 3 1) false
                 (responses (Raise URLError) (Raise URLError)) ButtonOk)
              (start (mkUpdateChecker (mkVersion 0 [0; 4; 0]%N None None None None)
                        None PREFIX false "Checking for updates...<br>")
                 fresh_files)
              false
              (mkUpdateChecker (mkVersion 0 [0; 4; 0]%N None None None None)
                 None PREFIX false "Checking for updates...<br>")
              fresh_files URLError) as [Hcheck _].
  - vm_compute. reflexivity.
  - reflexivity.
  - left. reflexivity.
  - rewrite Hcheck. reflexivity.
Defined.

(** X17.  [get_latest_version] never ends with an [HTTPError] or a
    [URLError]: whatever the two readers raise and whatever the lists hold,
    an exception that ends the run is of another class. *)
Theorem run_never_raises_network_error (net : network) (c : caches) (e : exn) :
  raised (fst (get_latest_version net c)) = Some e ->
  is_URLError e = false.
Proof.
  unfold get_latest_version.
  destruct (github_tags net c) as [tags c1].
  destruct (conda_forge_releases net c1) as [cf c2].
  destruct tags as [gh_tags|e1]; cbn [rbind].
  - destruct cf as [cf_versions|e2]; cbn [rbind].
    + destruct (index_last cf_versions) as [x|e3] eqn:Hx; cbn [rbind].
      * destruct (parse_value x) as [latest_version|e4] eqn:Hv.
        -- destruct (list_last gh_tags) as [y|e5] eqn:Hy; cbn [rbind].
           ++ destruct (parse y) as [latest_tag|e6] eqn:Ht.
              ** destruct (version_gt latest_version latest_tag); discriminate.
              ** intros [= <-]. unfold parse in Ht.
                 destruct (parse_chars _); [discriminate|].
                 injection Ht as <-. reflexivity.
           ++ intros [= <-]. unfold list_last in Hy.
              destruct (last gh_tags); [discriminate|].
              injection Hy as <-. reflexivity.
        -- intros [= <-]. apply (parse_value_error x e4 Hv).
      * intros [= <-]. unfold index_last in Hx.
        destruct cf_versions as [| | | s | l | m]; try (injection Hx as <-; reflexivity).
        -- destruct (last (list_ascii_of_string s)); [discriminate|].
           injection Hx as <-. reflexivity.
        -- destruct (last l); [discriminate|]. injection Hx as <-. reflexivity.
    + destruct (is_URLError e2) eqn:E2; [discriminate|]. intros [= <-]. exact E2.
  - destruct (is_URLError e1) eqn:E1; [discriminate|]. intros [= <-]. exact E1.
Qed.

Lemma run_never_raises_network_error_witness :
  is_URLError IndexError = false.
Proof.
  apply (run_never_raises_network_error (catalogs ["v0.4.5"] [])%string
           empty_caches IndexError).
  reflexivity.
Defined.

(** X18.  The first check of a freshly constructed widget that finds no
    record file and a greater version opens the dialog once and writes the
    update message into the label. *)
Theorem first_check_shows_dialog (env : environment) (__version__ : string)
    (prefix : path) (self : UpdateChecker) (fs : gmap (list string) node)
    (v : Version) :
  __init__ __version__ prefix = Ok self ->
  fs !! path_join prefix IGNORE_FILE = None ->
  yields (fst (get_latest_version (net env) empty_caches)) = [v] ->
  version_gt v (_current_version self) = true ->
  dialogs (scr (fst (check env (start self fs))))
    = [outdated_msg (_current_version self) v
         (if ON_BUNDLE env then URL_BUNDLE else URL_PACKAGE)] /\
  label (widget (scr (fst (check env (start self fs)))))
    = outdated_msg (_current_version self) v
        (if ON_BUNDLE env then URL_BUNDLE else URL_PACKAGE).
Proof.
  intros Hinit Hfile Hy Hgt.
  assert (Hself : _snoozed self = false /\ _base_folder self = prefix).
  { unfold __init__ in Hinit. destruct (parse __version__); [|discriminate Hinit].
    injection Hinit as <-. split; reflexivity. }
  destruct Hself as [Hsn Hbase].
  assert (Hfile' : files (scr (start self fs))
                     !! path_join (_base_folder (widget (scr (start self fs)))) IGNORE_FILE
                   = None) by (cbn; rewrite Hbase; exact Hfile).
  split.
  - apply (check_without_record_fresh_flag env (start self fs) v Hfile' Hsn Hy Hgt).
  - rewrite (check_yield env (start self fs) false self fs v
               (_check_time_absent _ _ _ Hfile') Hy).
    cbn [fst scr].
    apply (show_version_info_outdated env (mkScreen self fs []) v Hgt).
Qed.

Lemma first_check_shows_dialog_witness :
  dialogs (scr (fst (check example_env
                       (start (mkUpdateChecker
                                 (mkVersion 0 [0; 4; 0]%N None None None None)
                                 None PREFIX false "Checking for updates...<br>")
                          fresh_files))))
  = [outdated_msg (mkVersion 0 [0; 4; 0]%N None None None None)
       (mkVersion 0 [0; 4; 5]%N None None None None) URL_PACKAGE].
Proof.
  refine (proj1 (first_check_shows_dialog example_env "0.4.0" PREFIX
                   (mkUpdateChecker (mkVersion 0 [0; 4; 0]%N None None None None)
                      None PREFIX false "Checking for updates...<br>")
                   fresh_files (mkVersion 0 [0; 4; 5]%N None None None None)
                   _ _ _ _));
    first [reflexivity | vm_compute; reflexivity].
Defined.

(** [_check_time] does not look at the label. *)
Lemma _check_time_setText (self self' : UpdateChecker)
    (fs fs' : gmap (list string) node) (now : date) (b : bool) (text : string) :
  _check_time self fs now = Ok (b, self', fs') ->
  _check_time (setText self text) fs now = Ok (b, setText self' text, fs').
Proof.
  unfold _check_time. cbn [setText _base_folder].
  destruct (path_exists fs _); [|intros [= <- <- <-]; reflexivity].
  destruct (open_read fs _) as [content|e]; [|discriminate]. cbn [rbind].
  destruct (record_date content) as [old_date|].
  - destruct (days_between now old_date <? IGNORE_DAYS).
    + intros [= <- <- <-]. reflexivity.
    + destruct (os_remove fs _); [|discriminate]. intros [= <- <- <-]. reflexivity.
  - destruct (os_remove fs _); [|discriminate]. intros [= <- <- <-]. reflexivity.
Qed.

(** X19.  After the button is pressed, a check whose fetch fails at the
    network layer leaves the label at "Checking for updates...": the text
    that [_check] wrote is never replaced. *)
Theorem button_check_network_failure (env : environment) (a : app) (b : bool)
    (self' : UpdateChecker) (fs' : gmap (list string) node) (e : exn) :
  _check_time (widget (scr a)) (files (scr a)) (today env) = Ok (b, self', fs') ->
  is_URLError e = true ->
  (fst (github_tags (net env) (memo a)) = Raise e \/
   ((exists gh_tags, fst (github_tags (net env) (memo a)) = Ok gh_tags) /\
    fst (conda_forge_releases (net env) (memo a)) = Raise e)) ->
  snd (_check env a) = None /\
  label (widget (scr (fst (_check env a))))
    = ("Checking for updates..." +:+ String (ascii_of_nat 10) EmptyString) /\
  dialogs (scr (fst (_check env a))) = dialogs (scr a) /\
  warnings (fst (_check env a)) = warnings a ++ [NETWORK_WARNING].
Proof.
  intros Hct He Hfetch.
  pose proof (get_latest_version_fetch_error (net env) (memo a) e Hfetch) as Hrun.
  rewrite He in Hrun.
  unfold _check, check. cbn [scr widget files dialogs memo warnings].
  rewrite (_check_time_setText _ _ _ _ _ _ _ Hct).
  destruct (get_latest_version (net env) (memo a)) as [ran memo'].
  cbn [fst] in Hrun. subst ran. cbn [trace deliver fst snd scr widget dialogs warnings].
  repeat split.
Qed.

Lemma button_check_network_failure_witness :
  label (widget (scr (fst (_check
           (mkEnvironment (mkDate 2024 3 1) false
              (responses (Raise HTTPError) (Raise HTTPError)) ButtonOk)
           (start (mkUpdateChecker (mkVersion 0 [0; 4; 0]%N None None None None)
                     None PREFIX false "Checking for updates...<br>")
              fresh_files)))))
  = ("Checking for updates..." +:+ String (ascii_of_nat 10) EmptyString).
Proof.
  refine (proj1 (proj2 (button_check_network_failure
            (mkEnvironment (mkDate 2024 3 1) false
               (responses (Raise HTTPError) (Raise HTTPError)) ButtonOk)
            (start (mkUpdateChecker (mkVersion 0 [0; 4; 0]%N None None None None)
                      None PREFIX false "Checking for updates...<br>")
               fresh_files)
            false
            (mkUpdateChecker (mkVersion 0 [0; 4; 0]%N None None None None)
               None PREFIX false "Checking for updates...<br>")
            fresh_files HTTPError _ _ _))).
  - vm_compute. reflexivity.
  - reflexivity.
  - left. reflexivity.
Defined.

(** ** Checks in a row *)

(** A run that yields has got its two lists from the readers, and leaves
    them in the memo tables. *)
Lemma yields_fetched (net : network) (c : caches) (v : Version) :
  yields (fst (get_latest_version net c)) = [v] ->
  exists gh_tags cf_versions c1 c2,
    github_tags net c = (Ok gh_tags, c1) /\
    conda_forge_releases net c1 = (Ok cf_versions, c2) /\
    snd (get_latest_version net c) = c2.
Proof.
  unfold get_latest_version.
  destruct (github_tags net c) as [tags c1] eqn:Hgh.
  destruct (conda_forge_releases net c1) as [cf c2] eqn:Hcf.
  destruct tags as [gh_tags|e]; cbn [rbind];
    [|destruct (is_URLError e); discriminate].
  destruct cf as [cf_versions|e]; cbn [rbind];
    [|destruct (is_URLError e); discriminate].
  intros _. exists gh_tags, cf_versions, c1, c2. split; [reflexivity|].
  split; [exact Hcf|].
  destruct (rbind (index_last cf_versions) (fun x => parse_value x))
    as [latest_version|]; [|reflexivity].
  destruct (rbind (list_last gh_tags) (fun y => parse y))
    as [latest_tag|]; [|reflexivity].
  destruct (version_gt latest_version latest_tag); reflexivity.
Qed.

Lemma yields_again (net : network) (c : caches) (v : Version) :
  yields (fst (get_latest_version net c)) = [v] ->
  yields (fst (get_latest_version net (snd (get_latest_version net c)))) = [v].
Proof.
  intros Hy.
  destruct (yields_fetched net c v Hy) as (gh_tags & cf_versions & c1 & c2 & Hgh & Hcf & ->).
  pose proof (fetched_caches _ _ _ _ _ _ Hgh Hcf) as Hc2.
  assert (Hgh' : github_tags net c2 = (Ok gh_tags, c2)) by (subst c2; reflexivity).
  assert (Hcf' : conda_forge_releases net c2 = (Ok cf_versions, c2))
    by (subst c2; reflexivity).
  rewrite <- (get_latest_version_of_results net net c c1 c2 c2 c2 c2
                gh_tags gh_tags cf_versions cf_versions Hgh Hcf Hgh' Hcf' eq_refl eq_refl).
  exact Hy.
Qed.

(** One check answered with OK, without a record and without the flag. *)
Lemma check_ok_step (env : environment) (a : app) (v : Version) :
  files (scr a) !! path_join (_base_folder (widget (scr a))) IGNORE_FILE = None ->
  _snoozed (widget (scr a)) = false ->
  exec_ env = ButtonOk ->
  yields (fst (get_latest_version (net env) (memo a))) = [v] ->
  version_gt v (_current_version (widget (scr a))) = true ->
  fst (check env a)
  = mkApp (mkScreen
             (setText (widget (scr a))
                (outdated_msg (_current_version (widget (scr a))) v
                   (if ON_BUNDLE env then URL_BUNDLE else URL_PACKAGE)))
             (files (scr a))
             (dialogs (scr a)
              ++ [outdated_msg (_current_version (widget (scr a))) v
                    (if ON_BUNDLE env then URL_BUNDLE else URL_PACKAGE)]))
      (snd (get_latest_version (net env) (memo a))) (warnings a) None.
Proof.
  intros Hfile Hsn Hbtn Hy Hgt.
  rewrite (check_yield env a false _ _ v (_check_time_absent _ _ _ Hfile) Hy).
  cbn [fst]. unfold show_version_info. cbn [widget files dialogs].
  rewrite Hgt. cbn [setText _snoozed]. rewrite Hsn, Hbtn. reflexivity.
Qed.

(** X20.  Without a record file, and as long as the user answers OK, every
    check opens the dialog again: after [n] checks in a row [n] more dialogs
    have been opened, all with the same message, since the fetched lists are
    memoized and nothing remembers that the notice was seen. *)
Theorem dialog_returns_on_every_check (n : nat) :
  forall (env : environment) (a : app) (v : Version),
    files (scr a) !! path_join (_base_folder (widget (scr a))) IGNORE_FILE = None ->
    _snoozed (widget (scr a)) = false ->
    exec_ env = ButtonOk ->
    yields (fst (get_latest_version (net env) (memo a))) = [v] ->
    version_gt v (_current_version (widget (scr a))) = true ->
    dialogs (scr (checks n env a))
    = dialogs (scr a)
      ++ replicate n (outdated_msg (_current_version (widget (scr a))) v
                        (if ON_BUNDLE env then URL_BUNDLE else URL_PACKAGE)) /\
    files (scr (checks n env a)) = files (scr a).
Proof.
  induction n as [|n IH]; intros env a v Hfile Hsn Hbtn Hy Hgt.
  - cbn [checks replicate]. rewrite app_nil_r. split; reflexivity.
  - cbn [checks]. pose proof (check_ok_step env a v Hfile Hsn Hbtn Hy Hgt) as Hstep.
    destruct (IH env (fst (check env a)) v) as [Hd Hf].
    + rewrite Hstep. exact Hfile.
    + rewrite Hstep. exact Hsn.
    + exact Hbtn.
    + rewrite Hstep. cbn [memo]. apply yields_again, Hy.
    + rewrite Hstep. exact Hgt.
    + rewrite Hd, Hf, Hstep. cbn [scr dialogs files widget setText _current_version].
      rewrite <- app_assoc. split; reflexivity.
Qed.

Lemma dialog_returns_on_every_check_witness :
  length (dialogs (scr (checks 3 example_env
                          (start (mkUpdateChecker
                                    (mkVersion 0 [0; 4; 0]%N None None None None)
                                    None PREFIX false "Checking for updates...<br>")
                             fresh_files)))) = 3%nat.
Proof.
  destruct (dialog_returns_on_every_check 3 example_env
              (start (mkUpdateChecker (mkVersion 0 [0; 4; 0]%N None None None None)
                        None PREFIX false "Checking for updates...<br>")
                 fresh_files)
              (mkVersion 0 [0; 4; 5]%N None None None None)) as [Hd _].
  - vm_compute. reflexivity.
  - reflexivity.
  - reflexivity.
  - vm_compute. reflexivity.
  - reflexivity.
  - rewrite Hd. reflexivity.
Defined.
